(** * Workout analysis: the data pipeline of [SquashAnalysis.tsx]

    A shallow embedding of the pipeline that [fetchData] runs on the rows
    PapaParse delivers (filter by workout type, build the records, sort,
    aggregate per category) and of [formatDuration].

    Modelling conventions.
    - A JavaScript number is a [JsNum]: an integer, [NaN] or an infinity.
      Double arithmetic is exact on integers below 2^53, and that is the
      range in which [JsNum] arithmetic is the source's; negative zero is
      not told apart from zero.  Where the source divides, the division is
      modelled together with the rounding applied to it
      ([Math.floor (x / 60)], [Math.round (x / n)]).
    - A cell of a text column is a [JsVal]; a cell of one of the three
      numeric columns is a [NumCell]: the integer PapaParse's dynamic
      typing produced, [null] for an empty cell, [undefined] when the row
      has no such field.  Statements about [NumCell] are statements about
      integer-valued cells.  Fractional calories are modelled apart, on
      binary64 numbers ([DoubleCell], [avgCalories_double]), where sums
      round at every step.  Text in a numeric column is outside the model.
    - A string holds the UTF-8 bytes of the text.
    - [new Date (row['Start'])] is taken as given: a row carries the local
      calendar date the runtime read, or [InvalidDate].  Parsing the display
      label back ([new Date (a.date).getTime ()]) is left to the runtime and
      is a parameter, [label_time], of the pipeline.
    - [Array.prototype.sort] is stable; it is modelled by a stable insertion
      sort, which agrees with every conforming engine whenever the
      comparator is consistent.  When the comparator gives [NaN] for some
      pairs and a sign for others the order is the engine's own, and no
      statement here speaks of it.
    - [Math.max (...xs)] is taken within the engine's limit on the number
      of arguments: a category of some hundred thousand records makes the
      spread throw after [setData] has run, which is outside the model. *)

From Stdlib Require Import ZArith List String Ascii Bool Lia.
From Stdlib Require Import Permutation Sorted DecimalString DecimalPos.
From Stdlib Require Import SpecFloat.
Import ListNotations.
Local Open Scope string_scope.
Local Open Scope list_scope.
Local Open Scope Z_scope.

(** ** JavaScript numbers *)

Inductive JsNum : Type :=
  | Fin (z : Z)
  | NaN
  | PInf
  | NInf.

(** [a + b] on numbers. *)
Definition js_add (a b : JsNum) : JsNum :=
  match a, b with
  | NaN, _ | _, NaN => NaN
  | Fin x, Fin y => Fin (x + y)
  | PInf, NInf | NInf, PInf => NaN
  | PInf, _ | _, PInf => PInf
  | NInf, _ | _, NInf => NInf
  end.

Definition js_neg (a : JsNum) : JsNum :=
  match a with
  | Fin x => Fin (- x)
  | NaN => NaN
  | PInf => NInf
  | NInf => PInf
  end.

(** [a - b] on numbers. *)
Definition js_sub (a b : JsNum) : JsNum := js_add a (js_neg b).

Definition inf_of_sign (s : Z) : JsNum :=
  if s =? 0 then NaN else if 0 <? s then PInf else NInf.

Definition js_sign (a : JsNum) : option Z :=
  match a with
  | Fin x => Some (Z.sgn x)
  | NaN => None
  | PInf => Some 1
  | NInf => Some (-1)
  end.

(** [a * b] on numbers. *)
Definition js_mul (a b : JsNum) : JsNum :=
  match a, b with
  | Fin x, Fin y => Fin (x * y)
  | _, _ =>
      match js_sign a, js_sign b with
      | Some s, Some t => inf_of_sign (s * t)
      | _, _ => NaN
      end
  end.

(** [Math.floor (x / d)] for an integer divisor [d]. *)
Definition js_floor_div (x : JsNum) (d : Z) : JsNum :=
  match x with
  | Fin z => if d =? 0 then inf_of_sign (Z.sgn z) else Fin (z / d)
  | NaN => NaN
  | PInf => inf_of_sign (if d =? 0 then 1 else Z.sgn d)
  | NInf => inf_of_sign (if d =? 0 then -1 else - Z.sgn d)
  end.

(** [Math.round (x / d)] for an integer divisor [d]: the nearest integer,
    a tie going to the larger one. *)
Definition js_round_div (x : JsNum) (d : Z) : JsNum :=
  match x with
  | Fin z => if d =? 0 then inf_of_sign (Z.sgn z) else Fin ((2 * z + d) / (2 * d))
  | NaN => NaN
  | PInf => inf_of_sign (if d =? 0 then 1 else Z.sgn d)
  | NInf => inf_of_sign (if d =? 0 then -1 else - Z.sgn d)
  end.

(** [x % d] for an integer divisor [d]: the sign follows the dividend. *)
Definition js_rem (x : JsNum) (d : Z) : JsNum :=
  match x with
  | Fin z => if d =? 0 then NaN else Fin (Z.rem z d)
  | _ => NaN
  end.

(** The larger of two numbers as [Math.max] sees them. *)
Definition js_max2 (a b : JsNum) : JsNum :=
  match a, b with
  | NaN, _ | _, NaN => NaN
  | PInf, _ | _, PInf => PInf
  | NInf, c | c, NInf => c
  | Fin x, Fin y => Fin (Z.max x y)
  end.

(** [Math.max (...xs)]: [-Infinity] when there is no argument. *)
Definition Math_max (xs : list JsNum) : JsNum := fold_left js_max2 xs NInf.

(** [v > 0], false on [NaN]. *)
Definition js_is_positive (v : JsNum) : bool :=
  match v with
  | Fin z => 0 <? z
  | PInf => true
  | _ => false
  end.

(** Decimal text of an integer, as [String (z)] prints it. *)
Definition Z_to_string (z : Z) : string := NilZero.string_of_int (Z.to_int z).

(** [String (n)] for a number, as a template literal inserts it. *)
Definition JsNum_to_string (n : JsNum) : string :=
  match n with
  | Fin z => Z_to_string z
  | NaN => "NaN"
  | PInf => "Infinity"
  | NInf => "-Infinity"
  end.

(** ** formatDuration (lines 8-12) *)

Definition formatDuration (minutes : JsNum) : string :=
  let hours := js_floor_div minutes 60 in
  let mins := js_rem minutes 60 in
  (JsNum_to_string hours ++ "h " ++ JsNum_to_string mins ++ "m")%string.

(** ** Strings: [split] and [parseInt] *)

(** [s.split (sep)] for a one-character separator: never an empty array. *)
Fixpoint split_on (sep : ascii) (s : string) : list string :=
  match s with
  | EmptyString => [EmptyString]
  | String c rest =>
      if Ascii.eqb c sep then EmptyString :: split_on sep rest
      else match split_on sep rest with
           | p :: ps => String c p :: ps
           | [] => [String c EmptyString]
           end
  end.

Definition char_code (c : ascii) : Z := Z.of_N (N_of_ascii c).

(** White space that [parseInt] skips: the one-byte characters (tab, line
    feed, vertical tab, form feed, carriage return, space). *)
Definition is_whitespace (c : ascii) : bool :=
  let n := char_code c in
  ((9 <=? n) && (n <=? 13)) || (n =? 32).

(** The third byte of a white-space character whose UTF-8 form starts with
    the bytes [b1] and [b2]: U+1680, U+2000 to U+200A, U+2028, U+2029,
    U+202F, U+205F, U+3000 and U+FEFF. *)
Definition is_space_third_byte (b1 b2 b3 : Z) : bool :=
  ((b1 =? 225) && (b2 =? 154) && (b3 =? 128))
  || ((b1 =? 226) && (b2 =? 128)
      && (((128 <=? b3) && (b3 <=? 138))
          || (b3 =? 168) || (b3 =? 169) || (b3 =? 175)))
  || ((b1 =? 226) && (b2 =? 129) && (b3 =? 159))
  || ((b1 =? 227) && (b2 =? 128) && (b3 =? 128))
  || ((b1 =? 239) && (b2 =? 187) && (b3 =? 191)).

(** The number of bytes the white-space character at the head of [s]
    takes, 0 when [s] does not start with white space; a string holds the
    UTF-8 bytes of the text, and U+00A0 is the two bytes 194, 160. *)
Definition leading_space_bytes (s : string) : nat :=
  match s with
  | EmptyString => 0%nat
  | String c1 rest =>
      let b1 := char_code c1 in
      if is_whitespace c1 then 1%nat
      else if b1 =? 194 then
        match rest with
        | String c2 _ => if char_code c2 =? 160 then 2%nat else 0%nat
        | EmptyString => 0%nat
        end
      else if (b1 =? 225) || (b1 =? 226) || (b1 =? 227) || (b1 =? 239) then
        match rest with
        | String c2 (String c3 _) =>
            if is_space_third_byte b1 (char_code c2) (char_code c3)
            then 3%nat else 0%nat
        | _ => 0%nat
        end
      else 0%nat
  end.

Fixpoint trim_start (s : string) : string :=
  match s with
  | EmptyString => EmptyString
  | String _ rest =>
      match leading_space_bytes s with
      | 1%nat => trim_start rest
      | 2%nat =>
          match rest with
          | String _ rest2 => trim_start rest2
          | EmptyString => s
          end
      | 3%nat =>
          match rest with
          | String _ (String _ rest3) => trim_start rest3
          | _ => s
          end
      | _ => s
      end
  end.

(** The value of [c] as a digit of the given radix. *)
Definition digit_value (radix : Z) (c : ascii) : option Z :=
  let n := char_code c in
  let v :=
    if (48 <=? n) && (n <=? 57) then Some (n - 48)
    else if (97 <=? n) && (n <=? 122) then Some (n - 87)
    else if (65 <=? n) && (n <=? 90) then Some (n - 55)
    else None in
  match v with
  | Some d => if d <? radix then Some d else None
  | None => None
  end.

(** The digits of the longest prefix of [s] made of digits. *)
Fixpoint leading_digits (radix : Z) (s : string) : list Z :=
  match s with
  | EmptyString => []
  | String c rest =>
      match digit_value radix c with
      | Some d => d :: leading_digits radix rest
      | None => []
      end
  end.

Definition digits_to_Z (radix : Z) (ds : list Z) : Z :=
  fold_left (fun acc d => acc * radix + d) ds 0.

(** [parseInt (s)] with no radix argument: leading white space and a sign
    are skipped, a [0x] prefix selects radix 16, the longest run of digits
    is read, and what follows it is ignored. *)
Definition parseInt_string (s : string) : JsNum :=
  let s0 := trim_start s in
  let '(sign, s1) :=
    match s0 with
    | String "-" rest => (-1, rest)
    | String "+" rest => (1, rest)
    | _ => (1, s0)
    end in
  let '(radix, s2) :=
    match s1 with
    | String "0" (String x rest) =>
        if Ascii.eqb x "x" || Ascii.eqb x "X" then (16, rest) else (10, s1)
    | _ => (10, s1)
    end in
  match leading_digits radix s2 with
  | [] => NaN
  | ds => Fin (sign * digits_to_Z radix ds)
  end.

(** [parseInt (parts[i])]: a missing element is [undefined], which
    [parseInt] reads as the text "undefined". *)
Definition parseInt (v : option string) : JsNum :=
  match v with
  | Some s => parseInt_string s
  | None => parseInt_string "undefined"
  end.

(** ** Values, rows and records *)

(** A cell of a text column after dynamic typing. *)
Inductive JsVal : Type :=
  | VNumber (z : Z)
  | VString (s : string)
  | VBool (b : bool)
  | VNull
  | VUndefined.

(** [v === lit] for a string literal [lit]. *)
Definition strict_eq_string (v : JsVal) (lit : string) : bool :=
  match v with
  | VString s => String.eqb s lit
  | _ => false
  end.

(** A cell of a numeric column. *)
Inductive NumCell : Type :=
  | CNum (z : Z)
  | CNull
  | CUndefined.

(** [ToNumber]: [null] is 0 and [undefined] is [NaN]. *)
Definition cell_to_number (c : NumCell) : JsNum :=
  match c with
  | CNum z => Fin z
  | CNull => Fin 0
  | CUndefined => NaN
  end.

(** [c || 0]: a falsy cell ([null], [undefined], 0) gives 0. *)
Definition cell_or_zero (c : NumCell) : JsNum :=
  match c with
  | CNum z => if z =? 0 then Fin 0 else Fin z
  | CNull => Fin 0
  | CUndefined => Fin 0
  end.

Inductive Month : Type :=
  | Jan | Feb | Mar | Apr | May | Jun | Jul | Aug | Sep | Oct | Nov | Dec.

(** The value of [new Date (row['Start'])], by its local calendar date. *)
Inductive JsDate : Type :=
  | DateAt (year : Z) (month : Month) (day : Z)
  | InvalidDate.

Definition month_short (m : Month) : string :=
  match m with
  | Jan => "Jan" | Feb => "Feb" | Mar => "Mar" | Apr => "Apr"
  | May => "May" | Jun => "Jun" | Jul => "Jul" | Aug => "Aug"
  | Sep => "Sep" | Oct => "Oct" | Nov => "Nov" | Dec => "Dec"
  end.

(** [d.toLocaleDateString ('en-US', { month: 'short', day: 'numeric' })]:
    the year is not part of the label. *)
Definition toLocaleDateString (d : JsDate) : string :=
  match d with
  | DateAt _ m day => (month_short m ++ " " ++ Z_to_string day)%string
  | InvalidDate => "Invalid Date"
  end.

(** One element of [parseResult.data]: the six fields the pipeline reads. *)
Record Row : Type := mkRow {
  WorkoutType : JsVal;      (* row['Workout Type'] *)
  Start : JsDate;           (* new Date (row['Start']) *)
  Duration : JsVal;         (* row['Duration'] *)
  ActiveEnergy : NumCell;   (* row['Active Energy (kcal)'] *)
  AvgHeartRate : NumCell;   (* row['Avg. Heart Rate (bpm)'] *)
  MaxHeartRate : NumCell    (* row['Max. Heart Rate (bpm)'] *)
}.

(** The object built by the [map] callback (lines 75-83). *)
Record WorkoutRecord : Type := mkRecord {
  date : string;
  duration : JsVal;
  durationMinutes : JsNum;
  calories : NumCell;
  avgHeartRate : NumCell;
  maxHeartRate : NumCell;
  workoutType : JsVal
}.

(** The statistics object held in [squashStats] and [hikingStats]; its
    [maxHeartRate] is named [statsMaxHeartRate] here, apart from the
    record's field. *)
Record Stats : Type := mkStats {
  totalSessions : Z;
  totalDuration : string;
  avgCalories : JsNum;
  statsMaxHeartRate : JsNum
}.

(** ** Exceptions *)

Inductive JsError : Type :=
  | TypeError.

Inductive Exc (A : Type) : Type :=
  | Returned (a : A)
  | Thrown (e : JsError).
Arguments Returned {A} a.
Arguments Thrown {A} e.

Definition exc_bind {A B : Type} (m : Exc A) (k : A -> Exc B) : Exc B :=
  match m with
  | Returned a => k a
  | Thrown e => Thrown e
  end.

Notation "x <- m ;; k" := (exc_bind m (fun x => k))
  (at level 61, m at next level, right associativity).

(** [xs.map (f)] for a callback that may throw: the first throw ends it. *)
Fixpoint exc_map {A B : Type} (f : A -> Exc B) (xs : list A) : Exc (list B) :=
  match xs with
  | [] => Returned []
  | x :: rest =>
      y <- f x ;;
      ys <- exc_map f rest ;;
      Returned (y :: ys)
  end.

(** [v.split (':')]: only a string has the method. *)
Definition js_split (v : JsVal) : Exc (list string) :=
  match v with
  | VString s => Returned (split_on ":" s)
  | _ => Thrown TypeError
  end.

(** ** Sorting *)

(** Places [x], which came before every element of [sorted], into [sorted]:
    [x] moves past [y] only when [cmp x y > 0], so equal elements (and
    those whose comparison is [NaN]) keep their order. *)
Fixpoint insert_sorted {A : Type} (cmp : A -> A -> JsNum) (x : A)
    (sorted : list A) : list A :=
  match sorted with
  | [] => [x]
  | y :: rest =>
      if js_is_positive (cmp x y) then y :: insert_sorted cmp x rest
      else x :: sorted
  end.

(** [xs.sort (cmp)]. *)
Definition js_sort {A : Type} (cmp : A -> A -> JsNum) (xs : list A) : list A :=
  fold_right (insert_sorted cmp) [] xs.

(** [xs.reduce ((acc, row) => acc + f (row), 0)]. *)
Definition reduce_sum {A : Type} (f : A -> JsNum) (xs : list A) : JsNum :=
  fold_left (fun acc row => js_add acc (f row)) xs (Fin 0).

(** ** The pipeline of fetchData (lines 70-109) *)

(** The initial value of [squashStats] and [hikingStats] (lines 17-28). *)
Definition initialStats : Stats :=
  {| totalSessions := 0;
     totalDuration := "0h 0m";
     avgCalories := Fin 0;
     statsMaxHeartRate := Fin 0 |}.

(** The filter callback of line 71. *)
Definition is_tracked (row : Row) : bool :=
  strict_eq_string (WorkoutType row) "Squash"
  || strict_eq_string (WorkoutType row) "Hiking".

(** The map callback of lines 72-84. *)
Definition buildRecord (row : Row) : Exc WorkoutRecord :=
  durationParts <- js_split (Duration row) ;;
  let minutes :=
    js_add (js_mul (parseInt (nth_error durationParts 0)) (Fin 60))
           (parseInt (nth_error durationParts 1)) in
  Returned {| date := toLocaleDateString (Start row);
              duration := Duration row;
              durationMinutes := minutes;
              calories := ActiveEnergy row;
              avgHeartRate := AvgHeartRate row;
              maxHeartRate := MaxHeartRate row;
              workoutType := WorkoutType row |}.

(** The records of one category (lines 89 and 100). *)
Definition categoryData (label : string) (processed : list WorkoutRecord)
    : list WorkoutRecord :=
  filter (fun row => strict_eq_string (workoutType row) label) processed.

(** The statistics of lines 90-98, and the same at 101-109.  The effect runs
    once, on mount, so when the guard fails the state keeps its initial
    value. *)
Definition computeStats (catData : list WorkoutRecord) : Stats :=
  let n := Z.of_nat (List.length catData) in
  if 0 <? n then
    let totalMinutes := reduce_sum durationMinutes catData in
    {| totalSessions := n;
       totalDuration := formatDuration totalMinutes;
       avgCalories :=
         js_round_div
           (reduce_sum (fun row => cell_to_number (calories row)) catData) n;
       statsMaxHeartRate :=
         Math_max (map (fun row => cell_or_zero (maxHeartRate row)) catData) |}
  else initialStats.

(** What the component holds after the effect: [data] and the two
    statistics objects. *)
Record State : Type := mkState {
  data : list WorkoutRecord;
  squashStats : Stats;
  hikingStats : Stats
}.

Definition initialState : State :=
  {| data := []; squashStats := initialStats; hikingStats := initialStats |}.

Section Pipeline.

(** [new Date (label).getTime ()], as the runtime computes it. *)
Variable label_time : string -> JsNum.

(** The comparator of line 85. *)
Definition compareFn (a b : WorkoutRecord) : JsNum :=
  js_sub (label_time (date a)) (label_time (date b)).

(** Lines 70-85. *)
Definition processedData (rows : list Row) : Exc (list WorkoutRecord) :=
  mapped <- exc_map buildRecord (filter is_tracked rows) ;;
  Returned (js_sort compareFn mapped).

(** The body of [fetchData] from line 70 on; a throw of the [map] callback
    is caught at line 110 before any state has been set. *)
Definition fetchData (rows : list Row) : State :=
  match processedData rows with
  | Returned processed =>
      {| data := processed;
         squashStats := computeStats (categoryData "Squash" processed);
         hikingStats := computeStats (categoryData "Hiking" processed) |}
  | Thrown _ => initialState
  end.

End Pipeline.

(** ** A runtime for the examples *)

Definition month_of_short (s : string) : option Month :=
  find (fun m => String.eqb (month_short m) s)
       [Jan; Feb; Mar; Apr; May; Jun; Jul; Aug; Sep; Oct; Nov; Dec].

Definition days_before (m : Month) : Z :=
  match m with
  | Jan => 0 | Feb => 31 | Mar => 59 | Apr => 90 | May => 120 | Jun => 151
  | Jul => 181 | Aug => 212 | Sep => 243 | Oct => 273 | Nov => 304 | Dec => 334
  end.

(** One possible [label_time]: V8 reads a label such as "Mar 3" as that day
    of the year 2001 at midnight (here in UTC) and gives [NaN] for text it
    cannot read. *)
Definition label_time_2001 (label : string) : JsNum :=
  match split_on " " label with
  | [m; d] =>
      match month_of_short m, parseInt_string d with
      | Some mo, Fin day =>
          Fin (978307200000 + (days_before mo + day - 1) * 86400000)
      | _, _ => NaN
      end
  | _ => NaN
  end.

(** ** Notions the statements use *)

(** The position of a calendar date in time: later dates are larger. *)
Definition month_index (m : Month) : Z :=
  match m with
  | Jan => 0 | Feb => 1 | Mar => 2 | Apr => 3 | May => 4 | Jun => 5
  | Jul => 6 | Aug => 7 | Sep => 8 | Oct => 9 | Nov => 10 | Dec => 11
  end.

Definition calendar_rank (year : Z) (m : Month) (day : Z) : Z :=
  (year * 12 + month_index m) * 31 + day.

(** The calories that are present in a sequence of records. *)
Fixpoint present_calories (rs : list WorkoutRecord) : list Z :=
  match rs with
  | [] => []
  | r :: rest =>
      match calories r with
      | CNum z => z :: present_calories rest
      | _ => present_calories rest
      end
  end.

Definition Z_sum (zs : list Z) : Z := fold_right Z.add 0 zs.

(** The heart rate a record contributes to the maximum: 0 when absent. *)
Definition heart_rate_or_zero (r : WorkoutRecord) : Z :=
  match maxHeartRate r with
  | CNum z => z
  | _ => 0
  end.

(** A text of decimal digits and the number it denotes. *)
Definition is_decimal_digit (c : ascii) : bool :=
  (48 <=? char_code c) && (char_code c <=? 57).

Fixpoint all_digits (s : string) : bool :=
  match s with
  | EmptyString => true
  | String c rest => is_decimal_digit c && all_digits rest
  end.

Fixpoint decimal_value (s : string) : Z :=
  match s with
  | EmptyString => 0
  | String c rest =>
      (char_code c - 48) * 10 ^ Z.of_nat (String.length rest)
      + decimal_value rest
  end.

(** ** Sample data *)

Definition sample_row (label : string) (start : JsDate) (dur : JsVal)
    (energy maxHr : NumCell) : Row :=
  {| WorkoutType := VString label;
     Start := start;
     Duration := dur;
     ActiveEnergy := energy;
     AvgHeartRate := CNull;
     MaxHeartRate := maxHr |}.

Definition sample_record (label : string) (minutes : Z)
    (energy maxHr : NumCell) : WorkoutRecord :=
  {| date := "Mar 3";
     duration := VString "1:05";
     durationMinutes := Fin minutes;
     calories := energy;
     avgHeartRate := CNull;
     maxHeartRate := maxHr;
     workoutType := VString label |}.

(** ** The render and the export *)

(** [sep] does not occur in [s]. *)
Fixpoint lacks (sep : ascii) (s : string) : bool :=
  match s with
  | EmptyString => true
  | String c rest => negb (Ascii.eqb c sep) && lacks sep rest
  end.

Fixpoint zeros (n : nat) : string :=
  match n with
  | O => EmptyString
  | S k => String "0" (zeros k)
  end.

(** The decimal text of [z], filled with zeros on the left to [width]. *)
Definition pad_zero (width : nat) (z : Z) : string :=
  let text := Z_to_string z in
  (zeros (width - String.length text) ++ text)%string.

(** The UTC fields of a point in time; months count from 1. *)
Record UtcTime : Type := mkUtcTime {
  utcYear : Z;
  utcMonth : Z;
  utcDay : Z;
  utcHours : Z;
  utcMinutes : Z;
  utcSeconds : Z;
  utcMilliseconds : Z
}.

(** The date part of [t.toISOString ()]: four digits for the years 0 to
    9999, a sign and six digits otherwise. *)
Definition isoDate (t : UtcTime) : string :=
  let y := utcYear t in
  let sign := if y <? 0 then "-" else "+" in
  let yearText :=
    if (0 <=? y) && (y <=? 9999) then pad_zero 4 y
    else (sign ++ pad_zero 6 (Z.abs y))%string in
  (yearText ++ "-" ++ pad_zero 2 (utcMonth t) ++ "-"
   ++ pad_zero 2 (utcDay t))%string.

(** [t.toISOString ()]. *)
Definition toISOString (t : UtcTime) : string :=
  (isoDate t ++ "T" ++ pad_zero 2 (utcHours t) ++ ":"
   ++ pad_zero 2 (utcMinutes t) ++ ":" ++ pad_zero 2 (utcSeconds t) ++ "."
   ++ pad_zero 3 (utcMilliseconds t) ++ "Z")%string.

(** The download name of line 49, [now] being [new Date ()]; a missing
    array element would be inserted as the text "undefined". *)
Definition exportFileName (now : UtcTime) : string :=
  let day :=
    match nth_error (split_on "T" (toISOString now)) 0 with
    | Some d => d
    | None => "undefined"
    end in
  ("workout-analysis-" ++ day ++ ".png")%string.

(** The time a label stands for under [label_time_2001], 0 when it has
    none. *)
Definition label_key_2001 (label : string) : Z :=
  match label_time_2001 label with
  | Fin z => z
  | _ => 0
  end.

(** The runtime reads the label of every Squash or Hiking row of the batch
    as a time, [key] of the label. *)
Definition labels_readable (label_time : string -> JsNum)
    (key : string -> Z) (rows : list Row) : Prop :=
  forall row, In row rows -> is_tracked row = true ->
    label_time (toLocaleDateString (Start row))
    = Fin (key (toLocaleDateString (Start row))).

(** Three rows of March 2024, out of order, and the same in order. *)
Definition sample_batch : list Row :=
  [sample_row "Squash" (DateAt 2024 Mar 3) (VString "1:05") (CNum 300)
     (CNum 150);
   sample_row "Hiking" (DateAt 2024 Mar 1) (VString "2:10") (CNum 700)
     (CNum 140);
   sample_row "Squash" (DateAt 2024 Mar 2) (VString "0:45") (CNum 200)
     (CNum 170)].

Definition sample_batch_in_order : list Row :=
  [sample_row "Hiking" (DateAt 2024 Mar 1) (VString "2:10") (CNum 700)
     (CNum 140);
   sample_row "Squash" (DateAt 2024 Mar 2) (VString "0:45") (CNum 200)
     (CNum 170);
   sample_row "Squash" (DateAt 2024 Mar 3) (VString "1:05") (CNum 300)
     (CNum 150)].

(** Text after a run of digits that [parseInt] passes over and that does
    not change how the duration splits: empty, or without a colon and
    starting with something other than a digit or the letter x. *)
Definition ignored_tail (s : string) : bool :=
  lacks ":" s
  && match s with
     | EmptyString => true
     | String c _ =>
         negb (is_decimal_digit c)
         && negb (Ascii.eqb c "x") && negb (Ascii.eqb c "X")
     end.

(** ** The average on doubles

    Where a cell holds a fraction the sum of line 95 is a sum of binary64
    numbers, rounded at every step.  The definitions below follow that
    arithmetic exactly, on the calories cells of the records of one
    category taken in order. *)

(** A binary64 number. *)
Definition double : Type := spec_float.

Definition double_of_Z (z : Z) : double := binary_normalize 53 1024 z 0 false.

(** [a + b] and [a / b] on doubles, rounded to nearest, ties to even. *)
Definition double_add (a b : double) : double := SFadd 53 1024 a b.
Definition double_div (a b : double) : double := SFdiv 53 1024 a b.


(** [Math.round (x)] on a double: the nearest integer, a tie going up. *)
Definition Math_round (x : double) : JsNum :=
  match x with
  | S754_zero _ => Fin 0
  | S754_infinity false => PInf
  | S754_infinity true => NInf
  | S754_nan => NaN
  | S754_finite s m e =>
      let v := if s then Z.neg m else Z.pos m in
      if 0 <=? e then Fin (v * 2 ^ e)
      else Fin ((2 * v + 2 ^ (- e)) / (2 * 2 ^ (- e)))
  end.

(** A calories cell that may hold a fraction. *)
Inductive DoubleCell : Type :=
  | DNum (x : double)
  | DNull
  | DUndefined.

Definition double_cell_to_number (c : DoubleCell) : double :=
  match c with
  | DNum x => x
  | DNull => S754_zero false
  | DUndefined => S754_nan
  end.

(** [avgCalories] of lines 95 and 106 for a category whose records hold the
    calories [cells], in order; 0, the initial value, when there is none. *)
Definition avgCalories_double (cells : list DoubleCell) : JsNum :=
  let n := Z.of_nat (List.length cells) in
  if 0 <? n then
    Math_round
      (double_div
         (fold_left (fun acc c => double_add acc (double_cell_to_number c))
            cells (S754_zero false))
         (double_of_Z n))
  else Fin 0.

(** * Properties *)

(** ** Arithmetic of [JsNum] *)

Lemma js_add_comm (a b : JsNum) : js_add a b = js_add b a.
Proof. destruct a, b; simpl; try reflexivity; f_equal; lia. Qed.

Lemma js_add_assoc (a b c : JsNum) :
  js_add (js_add a b) c = js_add a (js_add b c).
Proof. destruct a, b, c; simpl; try reflexivity; f_equal; lia. Qed.

Lemma js_max2_comm (a b : JsNum) : js_max2 a b = js_max2 b a.
Proof. destruct a, b; simpl; try reflexivity; f_equal; lia. Qed.

Lemma js_max2_assoc (a b c : JsNum) :
  js_max2 (js_max2 a b) c = js_max2 a (js_max2 b c).
Proof. destruct a, b, c; simpl; try reflexivity; f_equal; lia. Qed.

Section FoldCommutative.

Variables (A : Type) (op : JsNum -> JsNum -> JsNum) (f : A -> JsNum).
Hypothesis op_comm : forall a b, op a b = op b a.
Hypothesis op_assoc : forall a b c, op (op a b) c = op a (op b c).

Let step (acc : JsNum) (x : A) : JsNum := op acc (f x).

Lemma step_swap (acc : JsNum) (x y : A) :
  step (step acc x) y = step (step acc y) x.
Proof.
  unfold step. rewrite !op_assoc. f_equal. apply op_comm.
Qed.

Lemma fold_left_op_perm (xs ys : list A) :
  Permutation xs ys ->
  forall acc, fold_left step xs acc = fold_left step ys acc.
Proof.
  induction 1 as [| x xs ys _ IH | x y xs | xs ys zs _ IH1 _ IH2];
    intro acc; simpl.
  - reflexivity.
  - apply IH.
  - now rewrite step_swap.
  - now rewrite IH1, IH2.
Qed.

(** The accumulator can be taken out of the fold. *)
Lemma fold_left_op_acc (xs : list A) (a b : JsNum) :
  fold_left step xs (op a b) = op a (fold_left step xs b).
Proof.
  revert b. induction xs as [| x xs IH]; intro b; simpl; [reflexivity |].
  unfold step at 2 4. rewrite op_assoc. apply IH.
Qed.

End FoldCommutative.

Lemma reduce_sum_perm {A : Type} (f : A -> JsNum) (xs ys : list A) :
  Permutation xs ys -> reduce_sum f xs = reduce_sum f ys.
Proof.
  intro H. unfold reduce_sum.
  apply (fold_left_op_perm A js_add f js_add_comm js_add_assoc xs ys H).
Qed.

Lemma Math_max_perm (xs ys : list JsNum) :
  Permutation xs ys -> Math_max xs = Math_max ys.
Proof.
  intro H. unfold Math_max.
  apply (fold_left_op_perm JsNum js_max2 (fun x => x)
           js_max2_comm js_max2_assoc xs ys H).
Qed.

Lemma reduce_sum_cons {A : Type} (f : A -> JsNum) (x : A) (xs : list A) :
  reduce_sum f (x :: xs) = js_add (f x) (reduce_sum f xs).
Proof.
  unfold reduce_sum. cbn [fold_left].
  replace (js_add (Fin 0) (f x)) with (js_add (f x) (Fin 0))
    by apply js_add_comm.
  apply (fold_left_op_acc A js_add f js_add_assoc).
Qed.

Lemma Math_max_cons (x : JsNum) (xs : list JsNum) :
  Math_max (x :: xs) = js_max2 x (Math_max xs).
Proof.
  unfold Math_max. cbn [fold_left].
  replace (js_max2 NInf x) with (js_max2 x NInf) by apply js_max2_comm.
  apply (fold_left_op_acc JsNum js_max2 (fun y => y) js_max2_assoc).
Qed.

(** ** Aggregation *)

Lemma computeStats_nonempty (r : WorkoutRecord) (rs : list WorkoutRecord) :
  computeStats (r :: rs) =
  let catData := r :: rs in
  let n := Z.of_nat (List.length catData) in
  {| totalSessions := n;
     totalDuration := formatDuration (reduce_sum durationMinutes catData);
     avgCalories :=
       js_round_div
         (reduce_sum (fun row => cell_to_number (calories row)) catData) n;
     statsMaxHeartRate :=
       Math_max (map (fun row => cell_or_zero (maxHeartRate row)) catData) |}.
Proof.
  unfold computeStats.
  destruct (0 <? Z.of_nat (List.length (r :: rs))) eqn:E; [reflexivity |].
  apply Z.ltb_ge in E. simpl List.length in E. lia.
Qed.

Lemma totalSessions_computeStats (rs : list WorkoutRecord) :
  totalSessions (computeStats rs) = Z.of_nat (List.length rs).
Proof.
  destruct rs as [| r rs]; [reflexivity |].
  now rewrite computeStats_nonempty.
Qed.

Lemma cell_or_zero_heart_rate (r : WorkoutRecord) :
  cell_or_zero (maxHeartRate r) = Fin (heart_rate_or_zero r).
Proof.
  unfold heart_rate_or_zero. destruct (maxHeartRate r) as [z | |]; simpl;
    try reflexivity.
  destruct (z =? 0) eqn:E; [apply Z.eqb_eq in E; now subst | reflexivity].
Qed.

Lemma Math_max_heart_rates (r : WorkoutRecord) (rs : list WorkoutRecord) :
  exists m,
    Math_max (map (fun row => cell_or_zero (maxHeartRate row)) (r :: rs)) = Fin m
    /\ (forall x, In x (r :: rs) -> heart_rate_or_zero x <= m)
    /\ (exists x, In x (r :: rs) /\ heart_rate_or_zero x = m).
Proof.
  revert r. induction rs as [| r' rs IH]; intro r.
  - exists (heart_rate_or_zero r). repeat split.
    + simpl map. rewrite Math_max_cons, cell_or_zero_heart_rate. reflexivity.
    + intros x [<- | []]. lia.
    + exists r. split; [now left | reflexivity].
  - destruct (IH r') as (m & Hm & Hub & (w & Hw & Hwm)).
    exists (Z.max (heart_rate_or_zero r) m). repeat split.
    + change (map (fun row => cell_or_zero (maxHeartRate row)) (r :: r' :: rs))
        with (cell_or_zero (maxHeartRate r)
                :: map (fun row => cell_or_zero (maxHeartRate row)) (r' :: rs)).
      rewrite Math_max_cons, Hm, cell_or_zero_heart_rate. reflexivity.
    + intros x [<- | Hx]; [lia |]. specialize (Hub x Hx). lia.
    + destruct (Z.max_spec (heart_rate_or_zero r) m) as [[_ E] | [_ E]];
        rewrite E.
      * exists w. split; [now right | exact Hwm].
      * exists r. split; [now left | reflexivity].
Qed.

Lemma sum_calories_present (rs : list WorkoutRecord) :
  (forall r, In r rs -> calories r <> CUndefined) ->
  reduce_sum (fun row => cell_to_number (calories row)) rs
  = Fin (Z_sum (present_calories rs)).
Proof.
  induction rs as [| r rs IH]; intro H; [reflexivity |].
  rewrite reduce_sum_cons, IH by (intros x Hx; apply H; now right).
  assert (Hr : calories r <> CUndefined) by (apply H; now left).
  simpl present_calories. destruct (calories r) as [z | |]; simpl.
  - reflexivity.
  - reflexivity.
  - now contradiction Hr.
Qed.


Lemma round_div_nearest (s n : Z) :
  0 < n ->
  let q := (2 * s + n) / (2 * n) in
  2 * s - n < 2 * n * q <= 2 * s + n.
Proof.
  intros Hn q.
  pose proof (Z.div_mod (2 * s + n) (2 * n) ltac:(lia)) as Hdm.
  pose proof (Z.mod_pos_bound (2 * s + n) (2 * n) ltac:(lia)) as Hb.
  fold q in Hdm. lia.
Qed.

(** ** Claims on aggregation *)




(** C5.  A category with no record keeps the zero state: 0 sessions, the
    duration text "0h 0m" (which is how a total of 0 minutes is displayed),
    0 average calories and 0 maximum heart rate.  No division takes place,
    and loading a batch with no row at all throws nothing and leaves every
    statistic at zero. *)
Theorem empty_category_zero_state
    (label_time : string -> JsNum) (label : string)
    (processed : list WorkoutRecord) :
  categoryData label processed = [] ->
  computeStats (categoryData label processed)
  = {| totalSessions := 0;
       totalDuration := formatDuration (reduce_sum durationMinutes []);
       avgCalories := Fin 0;
       statsMaxHeartRate := Fin 0 |}
  /\ formatDuration (reduce_sum durationMinutes []) = "0h 0m"
  /\ processedData label_time [] = Returned []
  /\ fetchData label_time []
     = {| data := []; squashStats := initialStats;
          hikingStats := initialStats |}.
Proof.
  intros ->. repeat split.
Qed.

(** C5 at a concrete input: Hiking statistics of a Squash-only sequence. *)
Lemma empty_category_zero_state_witness :
  computeStats
    (categoryData "Hiking" [sample_record "Squash" 65 (CNum 300) (CNum 150)])
  = {| totalSessions := 0;
       totalDuration := "0h 0m";
       avgCalories := Fin 0;
       statsMaxHeartRate := Fin 0 |}.
Proof.
  exact (proj1 (empty_category_zero_state label_time_2001 "Hiking"
                  [sample_record "Squash" 65 (CNum 300) (CNum 150)]
                  eq_refl)).
Defined.

(** C6.  For a non-empty sequence of records of one category the aggregated
    [maxHeartRate] is the maximum, over all records, of the record's
    [maxHeartRate] with an absent value counted as 0: it bounds every
    record's value and is attained by one.  When every record's value is
    absent (also when there is no record) the result is 0. *)
Theorem maxHeartRate_is_maximum (rs : list WorkoutRecord) :
  (rs <> [] ->
   exists m, statsMaxHeartRate (computeStats rs) = Fin m
             /\ (forall r, In r rs -> heart_rate_or_zero r <= m)
             /\ (exists r, In r rs /\ heart_rate_or_zero r = m))
  /\ ((forall r, In r rs ->
         maxHeartRate r = CNull \/ maxHeartRate r = CUndefined) ->
      statsMaxHeartRate (computeStats rs) = Fin 0).
Proof.
  assert (Hmax : rs <> [] ->
    exists m, statsMaxHeartRate (computeStats rs) = Fin m
              /\ (forall r, In r rs -> heart_rate_or_zero r <= m)
              /\ (exists r, In r rs /\ heart_rate_or_zero r = m)).
  { intro Hne. destruct rs as [| r rs]; [now contradiction Hne |].
    rewrite computeStats_nonempty. cbn [statsMaxHeartRate].
    apply Math_max_heart_rates. }
  split; [exact Hmax |].
  intro Habs. destruct rs as [| r rs]; [reflexivity |].
  destruct (Hmax ltac:(discriminate)) as (m & Hm & _ & (w & Hw & Hwm)).
  rewrite Hm. f_equal. rewrite <- Hwm. unfold heart_rate_or_zero.
  destruct (Habs w Hw) as [-> | ->]; reflexivity.
Qed.

(** C6 at concrete inputs: heart rates 150, absent, 170 give 170, and two
    absent values give 0. *)
Lemma maxHeartRate_is_maximum_witness :
  (exists m,
     statsMaxHeartRate
       (computeStats [sample_record "Squash" 65 (CNum 300) (CNum 150);
                      sample_record "Squash" 30 (CNum 100) CNull;
                      sample_record "Squash" 45 (CNum 200) (CNum 170)])
     = Fin m /\ m = 170)
  /\ statsMaxHeartRate
       (computeStats [sample_record "Hiking" 65 (CNum 300) CNull;
                      sample_record "Hiking" 45 (CNum 200) CUndefined])
     = Fin 0.
Proof.
  split.
  - destruct (proj1 (maxHeartRate_is_maximum
                       [sample_record "Squash" 65 (CNum 300) (CNum 150);
                        sample_record "Squash" 30 (CNum 100) CNull;
                        sample_record "Squash" 45 (CNum 200) (CNum 170)])
                    ltac:(discriminate)) as (m & Hm & _ & _).
    exists m. split; [exact Hm |].
    vm_compute in Hm. now injection Hm as <-.
  - apply (proj2 (maxHeartRate_is_maximum
                    [sample_record "Hiking" 65 (CNum 300) CNull;
                     sample_record "Hiking" 45 (CNum 200) CUndefined])).
    intros r [<- | [<- | []]]; [now left | now right].
Defined.




(** ** The pipeline *)

Lemma strict_eq_string_true (v : JsVal) (lit : string) :
  strict_eq_string v lit = true <-> v = VString lit.
Proof.
  destruct v as [z | s | b | |]; simpl; split; try discriminate.
  - intro H. apply String.eqb_eq in H. now subst.
  - intros [= ->]. apply String.eqb_refl.
Qed.

Lemma is_tracked_true (row : Row) :
  is_tracked row = true <->
  WorkoutType row = VString "Squash" \/ WorkoutType row = VString "Hiking".
Proof.
  unfold is_tracked. rewrite orb_true_iff, !strict_eq_string_true. tauto.
Qed.

Lemma is_tracked_false (row : Row) :
  WorkoutType row <> VString "Squash" ->
  WorkoutType row <> VString "Hiking" ->
  is_tracked row = false.
Proof.
  intros H1 H2. destruct (is_tracked row) eqn:E; [| reflexivity].
  apply is_tracked_true in E. tauto.
Qed.

Lemma exc_map_app {A B : Type} (f : A -> Exc B) (xs ys : list A) :
  exc_map f (xs ++ ys) =
  (xs' <- exc_map f xs ;; ys' <- exc_map f ys ;; Returned (xs' ++ ys')).
Proof.
  induction xs as [| x xs IH]; simpl.
  - destruct (exc_map f ys); reflexivity.
  - destruct (f x) as [y | e]; simpl; [| reflexivity].
    rewrite IH. destruct (exc_map f xs); simpl; [| reflexivity].
    destruct (exc_map f ys); reflexivity.
Qed.

Lemma exc_map_returned {A B : Type} (f : A -> Exc B) (xs : list A)
    (ys : list B) :
  exc_map f xs = Returned ys -> Forall2 (fun x y => f x = Returned y) xs ys.
Proof.
  revert ys. induction xs as [| x xs IH]; simpl; intros ys H.
  - injection H as <-. constructor.
  - destruct (f x) as [y | e] eqn:Ex; simpl in H; [| discriminate].
    destruct (exc_map f xs) as [ys' | e]; simpl in H; [| discriminate].
    injection H as <-. constructor; [exact Ex | now apply IH].
Qed.

Lemma exc_map_thrown {A B : Type} (f : A -> Exc B) (xs1 xs2 : list A)
    (x : A) (e : JsError) :
  f x = Thrown e -> exists e', exc_map f (xs1 ++ x :: xs2) = Thrown e'.
Proof.
  intro H. rewrite exc_map_app. simpl. rewrite H. simpl.
  destruct (exc_map f xs1) as [ys | e']; simpl; eauto.
Qed.

Lemma insert_sorted_perm {A : Type} (cmp : A -> A -> JsNum) (x : A)
    (xs : list A) :
  Permutation (insert_sorted cmp x xs) (x :: xs).
Proof.
  induction xs as [| y xs IH]; simpl; [reflexivity |].
  destruct (js_is_positive (cmp x y)); [| reflexivity].
  rewrite IH. apply perm_swap.
Qed.

Lemma js_sort_perm {A : Type} (cmp : A -> A -> JsNum) (xs : list A) :
  Permutation (js_sort cmp xs) xs.
Proof.
  induction xs as [| x xs IH]; simpl; [reflexivity |].
  rewrite insert_sorted_perm. now constructor.
Qed.

Lemma buildRecord_string (row : Row) (s : string) :
  Duration row = VString s ->
  buildRecord row =
  Returned {| date := toLocaleDateString (Start row);
              duration := Duration row;
              durationMinutes :=
                js_add (js_mul (parseInt (nth_error (split_on ":" s) 0))
                               (Fin 60))
                       (parseInt (nth_error (split_on ":" s) 1));
              calories := ActiveEnergy row;
              avgHeartRate := AvgHeartRate row;
              maxHeartRate := MaxHeartRate row;
              workoutType := WorkoutType row |}.
Proof.
  intro H. unfold buildRecord. rewrite H. reflexivity.
Qed.

Lemma buildRecord_not_string (row : Row) :
  (forall s, Duration row <> VString s) -> buildRecord row = Thrown TypeError.
Proof.
  intro H. unfold buildRecord.
  destruct (Duration row) as [z | s | b | |]; try reflexivity.
  now contradiction (H s).
Qed.

Lemma buildRecord_workoutType (row : Row) (r : WorkoutRecord) :
  buildRecord row = Returned r -> workoutType r = WorkoutType row.
Proof.
  unfold buildRecord. destruct (js_split (Duration row)); simpl;
    [| discriminate].
  now intros [= <-].
Qed.

Section PipelineFacts.

Variable label_time : string -> JsNum.

Lemma processedData_drop_untracked (rows1 rows2 : list Row) (row : Row) :
  is_tracked row = false ->
  processedData label_time (rows1 ++ row :: rows2)
  = processedData label_time (rows1 ++ rows2).
Proof.
  intro H. unfold processedData.
  rewrite !filter_app. simpl. now rewrite H.
Qed.

Lemma processedData_split (rows : list Row)
    (processed : list WorkoutRecord) :
  processedData label_time rows = Returned processed ->
  exists mapped,
    exc_map buildRecord (filter is_tracked rows) = Returned mapped
    /\ processed = js_sort (compareFn label_time) mapped.
Proof.
  unfold processedData.
  destruct (exc_map buildRecord (filter is_tracked rows)) as [m | e];
    simpl; [| discriminate].
  intros [= <-]. now exists m.
Qed.

Lemma processedData_tracked (rows : list Row)
    (processed : list WorkoutRecord) :
  processedData label_time rows = Returned processed ->
  Forall (fun r => workoutType r = VString "Squash"
                   \/ workoutType r = VString "Hiking") processed.
Proof.
  intro H. apply processedData_split in H as (mapped & Hm & ->).
  apply (Permutation_Forall (Permutation_sym (js_sort_perm _ mapped))).
  apply exc_map_returned in Hm.
  assert (Ht : Forall (fun row => is_tracked row = true)
                 (filter is_tracked rows)).
  { apply Forall_forall. intros x Hx. now apply filter_In in Hx. }
  induction Hm as [| row r rows' rs Hr _ IH]; constructor.
  - rewrite (buildRecord_workoutType _ _ Hr). apply is_tracked_true.
    now inversion Ht.
  - apply IH. now inversion Ht.
Qed.

Lemma fetchData_returned (rows : list Row)
    (processed : list WorkoutRecord) :
  processedData label_time rows = Returned processed ->
  fetchData label_time rows =
  {| data := processed;
     squashStats := computeStats (categoryData "Squash" processed);
     hikingStats := computeStats (categoryData "Hiking" processed) |}.
Proof.
  intro H. unfold fetchData. now rewrite H.
Qed.

End PipelineFacts.

Lemma categoryData_partition (processed : list WorkoutRecord) :
  Forall (fun r => workoutType r = VString "Squash"
                   \/ workoutType r = VString "Hiking") processed ->
  (List.length (categoryData "Squash" processed)
   + List.length (categoryData "Hiking" processed))%nat
  = List.length processed.
Proof.
  induction 1 as [| r rs Hr _ IH]; [reflexivity |].
  unfold categoryData in *. simpl.
  destruct Hr as [E | E]; rewrite E; simpl; rewrite <- IH; lia.
Qed.

Lemma exc_map_In {A B : Type} (f : A -> Exc B) (xs : list A) (ys : list B)
    (x : A) (y : B) :
  exc_map f xs = Returned ys -> In x xs -> f x = Returned y -> In y ys.
Proof.
  intros H Hin Hx. apply exc_map_returned in H.
  induction H as [| x' y' xs' ys' Hf _ IH]; [destruct Hin |].
  destruct Hin as [-> | Hin].
  - left. congruence.
  - right. now apply IH.
Qed.

Lemma exc_map_length {A B : Type} (f : A -> Exc B) (xs : list A)
    (ys : list B) :
  exc_map f xs = Returned ys -> List.length ys = List.length xs.
Proof.
  intro H. apply exc_map_returned in H.
  induction H; simpl; congruence.
Qed.

Section RowsInBatch.

Variable label_time : string -> JsNum.

Lemma processedData_In (rows : list Row) (processed : list WorkoutRecord)
    (row : Row) (r : WorkoutRecord) :
  processedData label_time rows = Returned processed ->
  In row rows -> is_tracked row = true -> buildRecord row = Returned r ->
  In r processed.
Proof.
  intros H Hin Ht Hr. apply processedData_split in H as (mapped & Hm & ->).
  apply (Permutation_in r (Permutation_sym (js_sort_perm _ mapped))).
  apply (exc_map_In buildRecord _ _ row r Hm); [| exact Hr].
  apply filter_In. now split.
Qed.

Lemma processedData_length (rows : list Row)
    (processed : list WorkoutRecord) :
  processedData label_time rows = Returned processed ->
  List.length processed = List.length (filter is_tracked rows).
Proof.
  intro H. apply processedData_split in H as (mapped & Hm & ->).
  rewrite (Permutation_length (js_sort_perm _ mapped)).
  now apply exc_map_length in Hm.
Qed.

(** A tracked row whose duration is text never throws and is kept. *)
Lemma processedData_keeps_row (rows1 rows2 : list Row) (row : Row)
    (s : string) (out : list WorkoutRecord) :
  is_tracked row = true ->
  Duration row = VString s ->
  processedData label_time (rows1 ++ rows2) = Returned out ->
  exists r out',
    buildRecord row = Returned r
    /\ processedData label_time (rows1 ++ row :: rows2) = Returned out'
    /\ In r out'
    /\ List.length out' = S (List.length out).
Proof.
  intros Ht Hs Hout.
  pose proof (buildRecord_string row s Hs) as Hr.
  set (r := {| date := toLocaleDateString (Start row) |}) in Hr.
  assert (Hp : exists out',
             processedData label_time (rows1 ++ row :: rows2)
             = Returned out').
  { pose proof Hout as Hout'.
    unfold processedData in Hout' |- *.
    rewrite filter_app in Hout' |- *. simpl filter. rewrite Ht.
    rewrite exc_map_app in Hout' |- *. simpl exc_map. rewrite Hr.
    destruct (exc_map buildRecord (filter is_tracked rows1)); simpl in *;
      [| discriminate].
    destruct (exc_map buildRecord (filter is_tracked rows2)); simpl in *;
      [| discriminate].
    eauto. }
  destruct Hp as (out' & Hout2). exists r, out'.
  split; [exact Hr |]. split; [exact Hout2 |]. split.
  - apply (processedData_In _ _ row r Hout2); auto.
    apply in_or_app. right. now left.
  - rewrite (processedData_length _ _ Hout2), (processedData_length _ _ Hout).
    rewrite !filter_app, !length_app. simpl filter. rewrite Ht. simpl. lia.
Qed.

(** A tracked row whose duration is not text makes the batch throw. *)
Lemma processedData_throws (rows1 rows2 : list Row) (row : Row) :
  is_tracked row = true ->
  (forall s, Duration row <> VString s) ->
  processedData label_time (rows1 ++ row :: rows2) = Thrown TypeError.
Proof.
  intros Ht Hd. unfold processedData.
  rewrite filter_app. simpl filter. rewrite Ht.
  destruct (exc_map_thrown buildRecord (filter is_tracked rows1)
              (filter is_tracked rows2) row TypeError
              (buildRecord_not_string row Hd)) as (e & He).
  rewrite He. destruct e. reflexivity.
Qed.

End RowsInBatch.

(** ** Claims on the pipeline *)

(** C7.  A row whose workout type is neither Squash nor Hiking is dropped
    before anything else looks at it: removing it from the batch changes
    nothing in what [fetchData] publishes (the data, from which each
    category's series is filtered, and both statistics objects), and every
    published record is a Squash or a Hiking record. *)
Theorem untracked_rows_dropped (label_time : string -> JsNum)
    (rows1 rows2 : list Row) (row : Row) :
  WorkoutType row <> VString "Squash" ->
  WorkoutType row <> VString "Hiking" ->
  fetchData label_time (rows1 ++ row :: rows2)
  = fetchData label_time (rows1 ++ rows2)
  /\ forall r, In r (data (fetchData label_time (rows1 ++ row :: rows2))) ->
               workoutType r <> WorkoutType row
               /\ (workoutType r = VString "Squash"
                   \/ workoutType r = VString "Hiking").
Proof.
  intros H1 H2. pose proof (is_tracked_false row H1 H2) as Hu.
  assert (E : fetchData label_time (rows1 ++ row :: rows2)
              = fetchData label_time (rows1 ++ rows2)).
  { unfold fetchData. now rewrite processedData_drop_untracked. }
  split; [exact E |].
  intros r Hr. unfold fetchData in Hr.
  destruct (processedData label_time (rows1 ++ row :: rows2))
    as [processed | e] eqn:Hp; simpl in Hr; [| destruct Hr].
  apply processedData_tracked in Hp.
  rewrite Forall_forall in Hp. specialize (Hp r Hr).
  split; [| exact Hp]. destruct Hp as [Hs | Hs]; rewrite Hs; congruence.
Qed.

(** C7 at a concrete input: a Running row between two Squash rows, with a
    duration that would throw if the row were processed. *)
Lemma untracked_rows_dropped_witness :
  fetchData label_time_2001
    ([sample_row "Squash" (DateAt 2024 Mar 1) (VString "1:05") (CNum 300)
        (CNum 150)]
     ++ sample_row "Running" (DateAt 2024 Mar 2) VNull (CNum 500) (CNum 190)
     :: [sample_row "Squash" (DateAt 2024 Mar 3) (VString "0:45") (CNum 200)
           (CNum 170)])
  = fetchData label_time_2001
      ([sample_row "Squash" (DateAt 2024 Mar 1) (VString "1:05") (CNum 300)
          (CNum 150)]
       ++ [sample_row "Squash" (DateAt 2024 Mar 3) (VString "0:45") (CNum 200)
             (CNum 170)]).
Proof.
  apply (untracked_rows_dropped label_time_2001); simpl; discriminate.
Defined.

(** C10.  When a batch is processed without a throw, every record of the
    processed sequence is a Squash or a Hiking record, and the Squash and
    Hiking session counts add up to the length of the sequence. *)
Theorem categories_partition_processed (label_time : string -> JsNum)
    (rows : list Row) (processed : list WorkoutRecord) :
  processedData label_time rows = Returned processed ->
  Forall (fun r => workoutType r = VString "Squash"
                   \/ workoutType r = VString "Hiking") processed
  /\ data (fetchData label_time rows) = processed
  /\ totalSessions (squashStats (fetchData label_time rows))
     + totalSessions (hikingStats (fetchData label_time rows))
     = Z.of_nat (List.length processed).
Proof.
  intro H. pose proof (processedData_tracked label_time rows processed H) as Ht.
  split; [exact Ht |].
  rewrite (fetchData_returned label_time rows processed H). simpl.
  split; [reflexivity |].
  rewrite !totalSessions_computeStats, <- Nat2Z.inj_add.
  now rewrite categoryData_partition.
Qed.

(** C10 at a concrete input: one Squash row, one Hiking row and a Running
    row. *)
Lemma categories_partition_processed_witness :
  let rows :=
    [sample_row "Hiking" (DateAt 2024 Mar 3) (VString "2:10") (CNum 700)
       (CNum 140);
     sample_row "Running" (DateAt 2024 Mar 2) (VString "0:30") (CNum 400)
       (CNum 180);
     sample_row "Squash" (DateAt 2024 Mar 1) (VString "1:05") (CNum 300)
       (CNum 150)] in
  totalSessions (squashStats (fetchData label_time_2001 rows))
  + totalSessions (hikingStats (fetchData label_time_2001 rows))
  = 2.
Proof.
  intro rows.
  destruct (processedData label_time_2001 rows) as [processed | e] eqn:Hp;
    [| vm_compute in Hp; discriminate].
  destruct (categories_partition_processed label_time_2001 rows processed Hp)
    as (_ & _ & Hsum).
  rewrite Hsum. vm_compute in Hp. injection Hp as <-. reflexivity.
Defined.

(** C9.  A tracked row whose duration text splits on ':' into more than two
    parts is neither rejected nor skipped: building its record throws
    nothing, [durationMinutes] is [parseInt] of the first part times 60
    plus [parseInt] of the second part, whatever the further parts are, and
    the record is in the output of every batch that holds the row and is
    processed without a throw. *)
Theorem extra_duration_parts_ignored (label_time : string -> JsNum)
    (rows : list Row) (row : Row) (s p0 p1 p2 : string)
    (more : list string) :
  In row rows ->
  WorkoutType row = VString "Squash" \/ WorkoutType row = VString "Hiking" ->
  Duration row = VString s ->
  split_on ":" s = p0 :: p1 :: p2 :: more ->
  exists r,
    buildRecord row = Returned r
    /\ durationMinutes r
       = js_add (js_mul (parseInt_string p0) (Fin 60)) (parseInt_string p1)
    /\ processedData label_time [row] = Returned [r]
    /\ forall processed,
         processedData label_time rows = Returned processed ->
         In r processed.
Proof.
  intros Hin Ht Hs Hsplit. apply is_tracked_true in Ht.
  pose proof (buildRecord_string row s Hs) as Hr.
  rewrite Hsplit in Hr. simpl nth_error in Hr. simpl parseInt in Hr.
  eexists. split; [exact Hr |]. split; [reflexivity |]. split.
  - unfold processedData. simpl filter. rewrite Ht. simpl exc_map.
    rewrite Hr. reflexivity.
  - intros processed Hp.
    now apply (processedData_In label_time rows processed row).
Qed.

(** C9 at a concrete input: "1:05:30" counts as 65 minutes. *)
Lemma extra_duration_parts_ignored_witness :
  let row := sample_row "Squash" (DateAt 2024 Mar 1) (VString "1:05:30")
               (CNum 300) (CNum 150) in
  exists r,
    buildRecord row = Returned r
    /\ durationMinutes r = Fin 65
    /\ processedData label_time_2001 [row] = Returned [r].
Proof.
  intro row.
  destruct (extra_duration_parts_ignored label_time_2001 [row] row
              "1:05:30" "1" "05" "30" []
              (or_introl eq_refl) (or_introl eq_refl) eq_refl eq_refl)
    as (r & Hr & Hmin & Hp & _).
  exists r. split; [exact Hr |]. split; [exact Hmin |]. exact Hp.
Defined.

(** C2, as amended.  What a single row does to a batch depends on the kind
    of its defect.
    - A row whose workout type is not Squash or Hiking is excluded, and the
      rest of the batch is processed as if the row were not there.
    - A Squash or Hiking row whose duration cell is text is never excluded,
      however unreadable the text or the start date: its record, with the
      label its date formats to, is added to the output.
    - A Squash or Hiking row whose duration cell is not text (empty,
      numeric, missing) makes the whole batch throw: nothing is published
      and the state stays as it was initially. *)
Theorem row_defects_by_kind (label_time : string -> JsNum)
    (rows1 rows2 : list Row) (row : Row) :
  (WorkoutType row <> VString "Squash" ->
   WorkoutType row <> VString "Hiking" ->
   processedData label_time (rows1 ++ row :: rows2)
   = processedData label_time (rows1 ++ rows2))
  /\ (WorkoutType row = VString "Squash"
      \/ WorkoutType row = VString "Hiking" ->
      forall s out,
        Duration row = VString s ->
        processedData label_time (rows1 ++ rows2) = Returned out ->
        exists r out',
          buildRecord row = Returned r
          /\ date r = toLocaleDateString (Start row)
          /\ processedData label_time (rows1 ++ row :: rows2) = Returned out'
          /\ In r out'
          /\ List.length out' = S (List.length out))
  /\ (WorkoutType row = VString "Squash"
      \/ WorkoutType row = VString "Hiking" ->
      (forall s, Duration row <> VString s) ->
      processedData label_time (rows1 ++ row :: rows2) = Thrown TypeError
      /\ fetchData label_time (rows1 ++ row :: rows2) = initialState).
Proof.
  split; [| split].
  - intros H1 H2. apply processedData_drop_untracked.
    now apply is_tracked_false.
  - intros Ht s out Hs Hout. apply is_tracked_true in Ht.
    destruct (processedData_keeps_row label_time rows1 rows2 row s out
                Ht Hs Hout) as (r & out' & Hr & Hp & Hin & Hlen).
    exists r, out'. repeat split; auto.
    rewrite (buildRecord_string row s Hs) in Hr. now injection Hr as <-.
  - intros Ht Hd. apply is_tracked_true in Ht.
    pose proof (processedData_throws label_time rows1 rows2 row Ht Hd) as Hp.
    split; [exact Hp |]. unfold fetchData. now rewrite Hp.
Qed.

(** C2 at concrete inputs, one for each kind of defect, each next to a
    valid Squash row. *)
Lemma row_defects_by_kind_witness :
  let good := sample_row "Squash" (DateAt 2024 Mar 1) (VString "1:05")
                (CNum 300) (CNum 150) in
  let running := sample_row "Running" (DateAt 2024 Mar 2) (VString "0:30")
                   (CNum 400) (CNum 180) in
  let unreadable := sample_row "Squash" InvalidDate (VString "abc")
                      (CNum 200) (CNum 170) in
  let empty := sample_row "Squash" (DateAt 2024 Mar 2) VNull
                 (CNum 200) (CNum 170) in
  processedData label_time_2001 ([good] ++ running :: [])
  = processedData label_time_2001 ([good] ++ [])
  /\ (exists r out',
        buildRecord unreadable = Returned r
        /\ date r = "Invalid Date"
        /\ processedData label_time_2001 ([good] ++ unreadable :: [])
           = Returned out'
        /\ In r out'
        /\ List.length out' = 2%nat)
  /\ fetchData label_time_2001 ([good] ++ empty :: []) = initialState.
Proof.
  intros good running unreadable empty. split; [| split].
  - apply (proj1 (row_defects_by_kind label_time_2001 [good] [] running));
      simpl; discriminate.
  - destruct (proj1 (proj2 (row_defects_by_kind label_time_2001 [good] []
                              unreadable))
                (or_introl eq_refl) "abc" _ eq_refl eq_refl)
      as (r & out' & H1 & H2 & H3 & H4 & H5).
    exists r, out'. repeat split; assumption.
  - apply (proj2 (proj2 (row_defects_by_kind label_time_2001 [good] []
                           empty))); [now left |].
    intros s. simpl. discriminate.
Defined.

(** C2 as stated fails.  Next to a valid Squash row, a Squash row with an
    empty duration cell aborts the batch (nothing is published, although
    the valid row alone gives one session), and a Squash row with the
    duration text "abc" is not excluded (two sessions are counted and the
    total duration is not a number). *)
Lemma single_row_error_counterexample :
  let good := sample_row "Squash" (DateAt 2024 Mar 1) (VString "1:05")
                (CNum 300) (CNum 150) in
  let empty := sample_row "Squash" (DateAt 2024 Mar 2) VNull
                 (CNum 200) (CNum 170) in
  let unreadable := sample_row "Squash" (DateAt 2024 Mar 2) (VString "abc")
                      (CNum 200) (CNum 170) in
  totalSessions (squashStats (fetchData label_time_2001 [good])) = 1
  /\ processedData label_time_2001 [good; empty] = Thrown TypeError
  /\ fetchData label_time_2001 [good; empty] = initialState
  /\ fetchData label_time_2001 [good; empty]
     <> fetchData label_time_2001 [good]
  /\ totalSessions (squashStats (fetchData label_time_2001 [good; unreadable]))
     = 2
  /\ totalDuration (squashStats (fetchData label_time_2001 [good; unreadable]))
     = "NaNh NaNm"
  /\ fetchData label_time_2001 [good; unreadable]
     <> fetchData label_time_2001 [good].
Proof.
  intros good empty unreadable.
  repeat split; try reflexivity; vm_compute; discriminate.
Qed.

Lemma js_sub_self_not_positive (a : JsNum) :
  js_is_positive (js_sub a a) = false.
Proof.
  destruct a as [z | | |]; simpl; try reflexivity.
  apply Z.ltb_ge. lia.
Qed.

(** C3 at the failing input.  Two Squash rows of 3 March, the first of 2024
    and the second of 2023: both get the label "Mar 3", so whatever time
    the runtime reads from that label the comparator finds no difference
    and the rows stay as they came, the later date first. *)
Theorem sort_ignores_year (label_time : string -> JsNum) :
  let later := sample_row "Squash" (DateAt 2024 Mar 3) (VString "1:05")
                 (CNum 300) (CNum 150) in
  let earlier := sample_row "Squash" (DateAt 2023 Mar 3) (VString "0:45")
                   (CNum 200) (CNum 170) in
  calendar_rank 2023 Mar 3 < calendar_rank 2024 Mar 3
  /\ exists r_later r_earlier,
       buildRecord later = Returned r_later
       /\ buildRecord earlier = Returned r_earlier
       /\ r_later <> r_earlier
       /\ data (fetchData label_time [later; earlier])
          = [r_later; r_earlier].
Proof.
  intros later earlier. split; [reflexivity |].
  eexists. eexists. split; [reflexivity |]. split; [reflexivity |].
  split; [discriminate |].
  unfold fetchData, processedData. simpl filter. simpl exc_map.
  cbn [exc_bind data js_sort fold_right insert_sorted].
  unfold compareFn. cbn [date].
  now rewrite js_sub_self_not_positive.
Qed.

(** ** Durations: text to minutes and back *)

Lemma digit_is_one_of_ten (c : ascii) :
  is_decimal_digit c = true ->
  In c ["0"; "1"; "2"; "3"; "4"; "5"; "6"; "7"; "8"; "9"]%char.
Proof.
  destruct c as [[] [] [] [] [] [] [] []]; vm_compute; intro H;
    try discriminate H; tauto.
Qed.

Lemma digit_value_decimal (c : ascii) :
  is_decimal_digit c = true -> digit_value 10 c = Some (char_code c - 48).
Proof.
  unfold is_decimal_digit, digit_value. intro H. rewrite H.
  apply andb_true_iff in H as [H1 H2].
  apply Z.leb_le in H1, H2.
  destruct (char_code c - 48 <? 10) eqn:E; [reflexivity |].
  apply Z.ltb_ge in E. lia.
Qed.

Lemma digits_not_split (s : string) :
  all_digits s = true -> split_on ":" s = [s].
Proof.
  induction s as [| c s IH]; simpl; [reflexivity |].
  intro H. apply andb_true_iff in H as [Hc Hs].
  rewrite (IH Hs).
  apply digit_is_one_of_ten in Hc. simpl in Hc.
  repeat (destruct Hc as [<- | Hc]; [reflexivity |]). destruct Hc.
Qed.

Lemma split_digits_colon (hs ms : string) :
  all_digits hs = true -> all_digits ms = true ->
  split_on ":" (hs ++ ":" ++ ms)%string = [hs; ms].
Proof.
  intros Hh Hm. induction hs as [| c hs IH]; simpl.
  - now rewrite digits_not_split.
  - simpl in Hh. apply andb_true_iff in Hh as [Hc Hh].
    simpl in IH. rewrite (IH Hh).
    apply digit_is_one_of_ten in Hc. simpl in Hc.
    repeat (destruct Hc as [<- | Hc]; [reflexivity |]). destruct Hc.
Qed.

Lemma leading_digits_value (s : string) (acc : Z) :
  all_digits s = true ->
  fold_left (fun a d => a * 10 + d) (leading_digits 10 s) acc
  = acc * 10 ^ Z.of_nat (String.length s) + decimal_value s.
Proof.
  revert acc. induction s as [| c s IH]; intros acc H.
  - simpl. lia.
  - cbn [all_digits] in H. apply andb_true_iff in H as [Hc Hs].
    cbn [leading_digits]. rewrite (digit_value_decimal c Hc).
    cbn [fold_left String.length decimal_value]. rewrite (IH _ Hs).
    rewrite Nat2Z.inj_succ, Z.pow_succ_r by lia. ring.
Qed.

Lemma leading_digits_nonempty (c : ascii) (s : string) :
  is_decimal_digit c = true -> leading_digits 10 (String c s) <> [].
Proof.
  intro H. cbn [leading_digits]. rewrite (digit_value_decimal c H).
  discriminate.
Qed.

Lemma parseInt_string_digits (s : string) :
  s <> "" -> all_digits s = true -> parseInt_string s = Fin (decimal_value s).
Proof.
  intros Hne H. destruct s as [| c s]; [now contradiction Hne |].
  pose proof H as Hall.
  cbn [all_digits] in H. apply andb_true_iff in H as [Hc Hs].
  pose proof (leading_digits_nonempty c s Hc) as Hnil.
  pose proof (leading_digits_value (String c s) 0 Hall) as Hval.
  assert (Hplain :
    match leading_digits 10 (String c s) with
    | [] => NaN
    | ds => Fin (1 * digits_to_Z 10 ds)
    end = Fin (decimal_value (String c s))).
  { destruct (leading_digits 10 (String c s)) as [| d ds] eqn:E;
      [now contradiction Hnil |].
    unfold digits_to_Z. rewrite Hval. f_equal. lia. }
  pose proof (digit_is_one_of_ten c Hc) as Hin. simpl in Hin.
  destruct Hin as [<- | Hin].
  - (* a leading 0: the next character decides the radix *)
    destruct s as [| x s]; [reflexivity |].
    cbn [all_digits] in Hs. apply andb_true_iff in Hs as [Hx _].
    pose proof (digit_is_one_of_ten x Hx) as Hxin. simpl in Hxin.
    repeat (destruct Hxin as [<- | Hxin]; [exact Hplain |]). destruct Hxin.
  - repeat (destruct Hin as [<- | Hin]; [exact Hplain |]). destruct Hin.
Qed.

Lemma formatDuration_hours_minutes (h m : Z) :
  0 <= h -> 0 <= m < 60 ->
  formatDuration (Fin (h * 60 + m))
  = (Z_to_string h ++ "h " ++ Z_to_string m ++ "m")%string.
Proof.
  intros Hh Hm.
  assert (Hq : (h * 60 + m) / 60 = h)
    by (symmetry; apply (Z.div_unique _ 60 h m); lia).
  assert (Hr : Z.rem (h * 60 + m) 60 = m).
  { rewrite Z.rem_mod_nonneg by lia.
    symmetry; apply (Z.mod_unique _ 60 h m); lia. }
  unfold formatDuration. cbn [js_floor_div js_rem].
  change (60 =? 0) with false. cbv iota.
  now rewrite Hq, Hr.
Qed.

(** The decimal text that [Z_to_string] prints denotes the number. *)

Lemma string_of_uint_digits (d : Decimal.uint) :
  all_digits (NilEmpty.string_of_uint d) = true.
Proof.
  induction d; simpl; auto.
Qed.

Lemma of_uint_acc_value (d : Decimal.uint) (acc : positive) :
  Z.pos (Pos.of_uint_acc d acc)
  = Z.pos acc * 10 ^ Z.of_nat (String.length (NilEmpty.string_of_uint d))
    + decimal_value (NilEmpty.string_of_uint d).
Proof.
  revert acc.
  induction d as [| d IH | d IH | d IH | d IH | d IH | d IH | d IH | d IH
                  | d IH | d IH]; intro acc;
    [ simpl; lia | .. ];
    cbn [Pos.of_uint_acc NilEmpty.string_of_uint String.length decimal_value];
    rewrite IH, Nat2Z.inj_succ, Z.pow_succ_r by lia;
    change (char_code "0") with 48; change (char_code "1") with 49;
    change (char_code "2") with 50; change (char_code "3") with 51;
    change (char_code "4") with 52; change (char_code "5") with 53;
    change (char_code "6") with 54; change (char_code "7") with 55;
    change (char_code "8") with 56; change (char_code "9") with 57;
    lia.
Qed.

Lemma of_uint_value (d : Decimal.uint) :
  Z.of_N (Pos.of_uint d) = decimal_value (NilEmpty.string_of_uint d).
Proof.
  induction d as [| d IH | d IH | d IH | d IH | d IH | d IH | d IH | d IH
                  | d IH | d IH];
    [ reflexivity | .. ];
    cbn [Pos.of_uint NilEmpty.string_of_uint decimal_value Z.of_N];
    [ rewrite IH; change (char_code "0") with 48; lia | .. ];
    rewrite of_uint_acc_value;
    change (char_code "1") with 49;
    change (char_code "2") with 50; change (char_code "3") with 51;
    change (char_code "4") with 52; change (char_code "5") with 53;
    change (char_code "6") with 54; change (char_code "7") with 55;
    change (char_code "8") with 56; change (char_code "9") with 57;
    lia.
Qed.

Lemma Z_to_string_decimal (n : Z) :
  0 <= n ->
  Z_to_string n <> ""
  /\ all_digits (Z_to_string n) = true
  /\ decimal_value (Z_to_string n) = n.
Proof.
  intro Hn. destruct n as [| p | p]; [now repeat split | | lia].
  unfold Z_to_string, Z.to_int, NilZero.string_of_int,
    NilZero.string_of_uint.
  pose proof (DecimalPos.Unsigned.to_uint_nonnil p) as Hnil.
  pose proof (DecimalPos.Unsigned.of_to p) as Hof.
  pose proof (of_uint_value (Pos.to_uint p)) as Hval.
  rewrite Hof in Hval. simpl Z.of_N in Hval.
  pose proof (string_of_uint_digits (Pos.to_uint p)) as Hdig.
  destruct (Pos.to_uint p) eqn:E; try (now contradiction Hnil);
    (split; [discriminate | split; [exact Hdig | now symmetry]]).
Qed.

Lemma parseInt_Z_to_string (n : Z) :
  0 <= n -> parseInt_string (Z_to_string n) = Fin n.
Proof.
  intro Hn. destruct (Z_to_string_decimal n Hn) as (Hne & Hd & Hv).
  now rewrite parseInt_string_digits, Hv.
Qed.

Lemma decimal_value_nonneg (s : string) :
  all_digits s = true -> 0 <= decimal_value s.
Proof.
  induction s as [| c s IH]; simpl; [lia |].
  intro H. apply andb_true_iff in H as [Hc Hs]. specialize (IH Hs).
  unfold is_decimal_digit in Hc. apply andb_true_iff in Hc as [Hlo _].
  apply Z.leb_le in Hlo.
  assert (0 <= 10 ^ Z.of_nat (String.length s)) by (apply Z.pow_nonneg; lia).
  nia.
Qed.

(** C4.  For a duration text made of a non-empty run of digits denoting H,
    a colon, and a non-empty run of digits denoting MM < 60, the record's
    [durationMinutes] is H * 60 + MM, and [formatDuration] of it is the
    decimal text of H, "h ", the decimal text of MM and "m"; those two
    texts read back as H and MM.  On every non-negative integer
    [formatDuration] yields such a text, with minutes between 0 and 59 and
    60 * hours + minutes equal to the argument. *)
Theorem duration_round_trip (row : Row) (hs ms : string) :
  hs <> "" -> ms <> "" ->
  all_digits hs = true -> all_digits ms = true ->
  decimal_value ms < 60 ->
  Duration row = VString (hs ++ ":" ++ ms) ->
  let H := decimal_value hs in
  let MM := decimal_value ms in
  (exists r,
     buildRecord row = Returned r
     /\ durationMinutes r = Fin (H * 60 + MM)
     /\ formatDuration (durationMinutes r)
        = (Z_to_string H ++ "h " ++ Z_to_string MM ++ "m")%string)
  /\ parseInt_string (Z_to_string H) = Fin H
  /\ parseInt_string (Z_to_string MM) = Fin MM
  /\ 0 <= MM < 60
  /\ forall n, 0 <= n ->
       exists h m,
         0 <= h /\ 0 <= m < 60 /\ n = h * 60 + m
         /\ formatDuration (Fin n)
            = (Z_to_string h ++ "h " ++ Z_to_string m ++ "m")%string.
Proof.
  intros Hhne Hmne Hh Hm Hlt Hd H MM.
  pose proof (decimal_value_nonneg hs Hh) as HH.
  pose proof (decimal_value_nonneg ms Hm) as HM.
  fold H in HH. fold MM in HM, Hlt.
  split; [| split; [| split; [| split]]].
  - pose proof (buildRecord_string row _ Hd) as Hr.
    rewrite (split_digits_colon hs ms Hh Hm) in Hr.
    cbn [nth_error parseInt] in Hr.
    rewrite (parseInt_string_digits hs Hhne Hh) in Hr.
    rewrite (parseInt_string_digits ms Hmne Hm) in Hr.
    fold H MM in Hr. cbn [js_mul js_add] in Hr.
    eexists. split; [exact Hr |]. cbn [durationMinutes].
    split; [reflexivity |].
    apply formatDuration_hours_minutes; lia.
  - now apply parseInt_Z_to_string.
  - now apply parseInt_Z_to_string.
  - lia.
  - intros n Hn. exists (n / 60), (n mod 60).
    pose proof (Z.mod_pos_bound n 60 ltac:(lia)) as Hb.
    pose proof (Z.div_mod n 60 ltac:(lia)) as Hdm.
    assert (Hq : 0 <= n / 60) by (apply Z.div_pos; lia).
    split; [exact Hq |]. split; [exact Hb |]. split; [lia |].
    replace n with (n / 60 * 60 + n mod 60) at 1 by lia.
    now apply formatDuration_hours_minutes.
Qed.

(** C4 at a concrete input: "1:05" is 65 minutes, shown as "1h 5m". *)
Lemma duration_round_trip_witness :
  let row := sample_row "Squash" (DateAt 2024 Mar 1) (VString "1:05")
               (CNum 300) (CNum 150) in
  exists r,
    buildRecord row = Returned r
    /\ durationMinutes r = Fin 65
    /\ formatDuration (durationMinutes r) = "1h 5m".
Proof.
  intro row.
  destruct (duration_round_trip row "1" "05"
              ltac:(discriminate) ltac:(discriminate)
              eq_refl eq_refl eq_refl eq_refl)
    as ((r & Hr & Hmin & Hfmt) & _).
  exists r. split; [exact Hr |]. split; [exact Hmin |]. exact Hfmt.
Defined.

(** ** The sort, when the comparator is a difference of finite keys *)

Section SortByKey.

Variables (A : Type) (cmp : A -> A -> JsNum) (key : A -> Z).

Let key_le (a b : A) : Prop := key a <= key b.
Let has_key (k : Z) (a : A) : bool := key a =? k.

Lemma insert_sorted_by_key (x : A) (xs : list A) :
  (forall y, In y xs -> cmp x y = Fin (key x - key y)) ->
  StronglySorted key_le xs ->
  StronglySorted key_le (insert_sorted cmp x xs).
Proof.
  intros Hcmp Hs. induction Hs as [| y xs Hs IH Hy]; simpl.
  - repeat constructor.
  - rewrite (Hcmp y) by now left. simpl.
    destruct (0 <? key x - key y) eqn:E.
    + apply Z.ltb_lt in E. constructor.
      * apply IH. intros z Hz. apply Hcmp. now right.
      * apply (Permutation_Forall
                 (Permutation_sym (insert_sorted_perm cmp x xs))).
        constructor; [unfold key_le; lia | exact Hy].
    + apply Z.ltb_ge in E. constructor; [now constructor |].
      constructor; [unfold key_le; lia |].
      apply (Forall_impl _ (P := key_le y)); [| exact Hy].
      unfold key_le. intros z Hz. lia.
Qed.

Lemma insert_sorted_stable (k : Z) (x : A) (xs : list A) :
  (forall y, In y xs -> cmp x y = Fin (key x - key y)) ->
  filter (has_key k) (insert_sorted cmp x xs)
  = filter (has_key k) (x :: xs).
Proof.
  intro Hcmp. induction xs as [| y xs IH]; [reflexivity |].
  cbn [insert_sorted]. rewrite (Hcmp y) by now left. simpl js_is_positive.
  destruct (0 <? key x - key y) eqn:E; [| reflexivity].
  apply Z.ltb_lt in E.
  cbn [filter]. rewrite IH by (intros z Hz; apply Hcmp; now right).
  cbn [filter]. unfold has_key.
  destruct (key x =? k) eqn:Ex, (key y =? k) eqn:Ey; try reflexivity.
  apply Z.eqb_eq in Ex, Ey. lia.
Qed.

(** With such a comparator the result is in ascending key order, and the
    elements of any one key are in the order they came. *)
Lemma js_sort_by_key (xs : list A) :
  (forall a b, In a xs -> In b xs -> cmp a b = Fin (key a - key b)) ->
  StronglySorted key_le (js_sort cmp xs)
  /\ forall k, filter (has_key k) (js_sort cmp xs) = filter (has_key k) xs.
Proof.
  induction xs as [| x xs IH]; intro Hcmp.
  - split; [constructor | reflexivity].
  - destruct IH as [IHs IHf].
    { intros a b Ha Hb. apply Hcmp; now right. }
    assert (Hx : forall y, In y (js_sort cmp xs) ->
                           cmp x y = Fin (key x - key y)).
    { intros y Hy. apply Hcmp; [now left | right].
      now apply (Permutation_in y (js_sort_perm cmp xs)). }
    split.
    + now apply insert_sorted_by_key.
    + intro k. cbn [js_sort fold_right]. fold (js_sort cmp xs).
      rewrite (insert_sorted_stable k x _ Hx).
      cbn [filter]. now rewrite IHf.
Qed.

End SortByKey.

(** ** Worked examples *)

Example formatDuration_125 : formatDuration (Fin 125) = "2h 5m".
Proof. reflexivity. Qed.

Example formatDuration_negative : formatDuration (Fin (-65)) = "-2h -5m".
Proof. reflexivity. Qed.

Example parseInt_samples :
  parseInt_string "05" = Fin 5
  /\ parseInt_string "  -0x1Fz" = Fin (-31)
  /\ parseInt_string "12abc" = Fin 12
  /\ parseInt_string "abc" = NaN
  /\ parseInt None = NaN.
Proof. repeat split. Qed.

Example split_samples :
  split_on ":" "1:05:30" = ["1"; "05"; "30"]
  /\ split_on ":" "45" = ["45"]
  /\ split_on ":" "" = [""].
Proof. repeat split. Qed.

(** The end-to-end scenario: two Squash sessions of 1:05 and 0:45. *)
Example two_squash_sessions :
  squashStats
    (fetchData label_time_2001
       [sample_row "Squash" (DateAt 2024 Mar 1) (VString "1:05") (CNum 300)
          (CNum 150);
        sample_row "Squash" (DateAt 2024 Mar 2) (VString "0:45") (CNum 200)
          (CNum 170)])
  = {| totalSessions := 2;
       totalDuration := "1h 50m";
       avgCalories := Fin 250;
       statsMaxHeartRate := Fin 170 |}.
Proof. reflexivity. Qed.

(** Three days of one March come out in date order. *)
Example march_rows_sorted :
  map date
    (data (fetchData label_time_2001
             [sample_row "Squash" (DateAt 2024 Mar 3) (VString "1:05")
                (CNum 300) (CNum 150);
              sample_row "Hiking" (DateAt 2024 Mar 1) (VString "2:10")
                (CNum 700) (CNum 140);
              sample_row "Squash" (DateAt 2024 Mar 2) (VString "0:45")
                (CNum 200) (CNum 170)]))
  = ["Mar 1"; "Mar 2"; "Mar 3"].
Proof. reflexivity. Qed.

(** Across a new year they do not: 31 December 2023 comes after 1 January
    2024, although the rows arrived in date order. *)
Example new_year_rows_reordered :
  map calories
    (data (fetchData label_time_2001
             [sample_row "Squash" (DateAt 2023 Dec 31) (VString "1:05")
                (CNum 300) (CNum 150);
              sample_row "Squash" (DateAt 2024 Jan 1) (VString "0:45")
                (CNum 200) (CNum 170)]))
  = [CNum 200; CNum 300].
Proof. reflexivity. Qed.

(** * Further properties of the code *)

(** ** Filtering by category *)

Lemma Permutation_filter {A : Type} (p : A -> bool) (xs ys : list A) :
  Permutation xs ys -> Permutation (filter p xs) (filter p ys).
Proof.
  induction 1 as [| x xs ys _ IH | x y xs | xs ys zs _ IH1 _ IH2]; simpl.
  - constructor.
  - destruct (p x); [now constructor | exact IH].
  - destruct (p x), (p y); try reflexivity. apply perm_swap.
  - now transitivity (filter p ys).
Qed.

Lemma filter_same {A : Type} (p : A -> bool) (xs : list A) :
  filter p (filter p xs) = filter p xs.
Proof.
  induction xs as [| x xs IH]; simpl; [reflexivity |].
  destruct (p x) eqn:E; simpl; [now rewrite E, IH | exact IH].
Qed.

(** X1.  Filtering by a category is idempotent, and filtering the records of
    one category by a different label leaves nothing. *)
Theorem categoryData_idempotent_disjoint (label other : string)
    (processed : list WorkoutRecord) :
  categoryData label (categoryData label processed)
  = categoryData label processed
  /\ (label <> other ->
      categoryData other (categoryData label processed) = []).
Proof.
  split; [apply filter_same |].
  intro Hne. unfold categoryData.
  induction processed as [| r rs IH]; simpl; [reflexivity |].
  destruct (strict_eq_string (workoutType r) label) eqn:E; [| exact IH].
  simpl. destruct (strict_eq_string (workoutType r) other) eqn:E'; [| exact IH].
  apply strict_eq_string_true in E, E'. congruence.
Qed.

Lemma categoryData_idempotent_disjoint_witness :
  categoryData "Hiking"
    (categoryData "Squash"
       [sample_record "Squash" 65 (CNum 300) (CNum 150);
        sample_record "Hiking" 45 (CNum 200) (CNum 170)])
  = [].
Proof.
  apply (proj2 (categoryData_idempotent_disjoint "Squash" "Hiking" _)).
  discriminate.
Defined.

(** ** When a batch throws *)

Lemma exc_map_thrown_inv {A B : Type} (f : A -> Exc B) (xs : list A)
    (e : JsError) :
  exc_map f xs = Thrown e -> exists x, In x xs /\ f x = Thrown e.
Proof.
  induction xs as [| x xs IH]; simpl; [discriminate |].
  destruct (f x) as [y | e'] eqn:Ex; simpl.
  - destruct (exc_map f xs) as [ys | e'']; simpl; [discriminate |].
    intros [= <-]. destruct (IH eq_refl) as (z & Hz & Hf).
    exists z. split; [now right | exact Hf].
  - intros [= <-]. exists x. split; [now left | exact Ex].
Qed.

Lemma buildRecord_thrown (row : Row) (e : JsError) :
  buildRecord row = Thrown e -> forall s, Duration row <> VString s.
Proof.
  intros H s Hs. rewrite (buildRecord_string row s Hs) in H. discriminate.
Qed.

(** X3.  A batch throws exactly when one of its Squash or Hiking rows has a
    duration cell that is not text; otherwise it yields one record for
    each Squash or Hiking row. *)
Theorem batch_throws_iff (label_time : string -> JsNum) (rows : list Row) :
  (processedData label_time rows = Thrown TypeError <->
   exists row,
     In row rows
     /\ (WorkoutType row = VString "Squash"
         \/ WorkoutType row = VString "Hiking")
     /\ forall s, Duration row <> VString s)
  /\ forall processed,
       processedData label_time rows = Returned processed ->
       List.length processed = List.length (filter is_tracked rows).
Proof.
  split; [split |].
  - intro H. unfold processedData in H.
    destruct (exc_map buildRecord (filter is_tracked rows)) as [m | e] eqn:Hm;
      simpl in H; [discriminate |].
    apply exc_map_thrown_inv in Hm as (row & Hin & Hthrow).
    apply filter_In in Hin as [Hin Ht].
    exists row. split; [exact Hin |]. split; [now apply is_tracked_true |].
    now apply (buildRecord_thrown row e).
  - intros (row & Hin & Ht & Hd). apply is_tracked_true in Ht.
    apply in_split in Hin as (rows1 & rows2 & ->).
    now apply processedData_throws.
  - apply processedData_length.
Qed.

Lemma batch_throws_iff_witness :
  processedData label_time_2001
    [sample_row "Hiking" (DateAt 2024 Mar 1) (VString "2:10") (CNum 700)
       (CNum 140);
     sample_row "Squash" (DateAt 2024 Mar 2) (VNumber 45) (CNum 200)
       (CNum 170)]
  = Thrown TypeError.
Proof.
  apply (proj1 (batch_throws_iff label_time_2001 _)).
  eexists. split; [right; left; reflexivity |].
  split; [now left |]. intros s. simpl. discriminate.
Defined.

(** ** The statistics do not see the order of the rows *)

Lemma exc_map_perm {A B : Type} (f : A -> Exc B) (xs xs' : list A) :
  Permutation xs xs' ->
  match exc_map f xs, exc_map f xs' with
  | Returned ys, Returned ys' => Permutation ys ys'
  | Thrown _, Thrown _ => True
  | _, _ => False
  end.
Proof.
  induction 1 as [| x xs xs' _ IH | x y xs | xs1 xs2 xs3 _ IH1 _ IH2]; simpl.
  - constructor.
  - destruct (f x); simpl; [| exact I].
    destruct (exc_map f xs), (exc_map f xs'); simpl; auto.
  - destruct (f x), (f y); simpl; try exact I;
      destruct (exc_map f xs); simpl; try exact I.
    apply perm_swap.
  - destruct (exc_map f xs1), (exc_map f xs2), (exc_map f xs3);
      try contradiction; try exact I.
    now transitivity a0.
Qed.

Lemma computeStats_categoryData_perm (label : string)
    (rs rs' : list WorkoutRecord) :
  Permutation rs rs' ->
  computeStats (categoryData label rs) = computeStats (categoryData label rs').
Proof.
  intro H. unfold categoryData.
  pose proof (Permutation_filter
                (fun row => strict_eq_string (workoutType row) label) _ _ H)
    as Hf.
  unfold computeStats. rewrite (Permutation_length Hf).
  destruct (0 <? _); [| reflexivity].
  f_equal.
  - f_equal. now apply reduce_sum_perm.
  - f_equal. now apply reduce_sum_perm.
  - apply Math_max_perm. now apply Permutation_map.
Qed.

(** X4.  For batches whose calories and heart-rate cells are integers
    (sums below 2^53), both statistics objects depend neither on the order
    in which the rows arrive nor on how the runtime reads the date labels:
    two batches that are permutations of each other, sorted under any two
    runtimes, give the same Squash and the same Hiking statistics. *)
Theorem stats_independent_of_order (label_time label_time' : string -> JsNum)
    (rows rows' : list Row) :
  Permutation rows rows' ->
  squashStats (fetchData label_time rows)
  = squashStats (fetchData label_time' rows')
  /\ hikingStats (fetchData label_time rows)
     = hikingStats (fetchData label_time' rows').
Proof.
  intro H. unfold fetchData, processedData.
  pose proof (exc_map_perm buildRecord _ _
                (Permutation_filter is_tracked _ _ H)) as Hm.
  destruct (exc_map buildRecord (filter is_tracked rows)) as [m | e],
           (exc_map buildRecord (filter is_tracked rows')) as [m' | e'];
    try contradiction; simpl; [| split; reflexivity].
  assert (Hs : Permutation (js_sort (compareFn label_time) m)
                           (js_sort (compareFn label_time') m')).
  { rewrite (js_sort_perm (compareFn label_time) m).
    rewrite (js_sort_perm (compareFn label_time') m'). exact Hm. }
  split; now apply computeStats_categoryData_perm.
Qed.

Lemma stats_independent_of_order_witness :
  squashStats
    (fetchData label_time_2001
       [sample_row "Squash" (DateAt 2024 Mar 1) (VString "1:05") (CNum 300)
          (CNum 150);
        sample_row "Squash" (DateAt 2024 Mar 2) (VString "0:45") CNull
          (CNum 170)])
  = squashStats
      (fetchData (fun _ => NaN)
         [sample_row "Squash" (DateAt 2024 Mar 2) (VString "0:45") CNull
            (CNum 170);
          sample_row "Squash" (DateAt 2024 Mar 1) (VString "1:05") (CNum 300)
            (CNum 150)]).
Proof.
  apply (stats_independent_of_order label_time_2001 (fun _ => NaN)).
  apply perm_swap.
Defined.

(** ** The order of the published records *)

Lemma buildRecord_date (row : Row) (r : WorkoutRecord) :
  buildRecord row = Returned r -> date r = toLocaleDateString (Start row).
Proof.
  unfold buildRecord. destruct (js_split (Duration row)); simpl;
    [| discriminate].
  now intros [= <-].
Qed.

Lemma StronglySorted_filter {A : Type} (R : A -> A -> Prop) (p : A -> bool)
    (xs : list A) :
  StronglySorted R xs -> StronglySorted R (filter p xs).
Proof.
  induction 1 as [| x xs _ IH Hx]; simpl; [constructor |].
  destruct (p x); [| exact IH].
  constructor; [exact IH |].
  apply Forall_forall. intros y Hy. apply filter_In in Hy as [Hy _].
  rewrite Forall_forall in Hx. now apply Hx.
Qed.

Lemma exc_map_In_inv {A B : Type} (f : A -> Exc B) (xs : list A)
    (ys : list B) (y : B) :
  exc_map f xs = Returned ys -> In y ys ->
  exists x, In x xs /\ f x = Returned y.
Proof.
  intros H Hy. apply exc_map_returned in H.
  induction H as [| x y' xs' ys' Hf _ IH]; [destruct Hy |].
  destruct Hy as [<- | Hy].
  - exists x. split; [now left | exact Hf].
  - destruct (IH Hy) as (z & Hz & Hfz). exists z. split; [now right | exact Hfz].
Qed.

Section FiniteLabelTimes.

Variable label_time : string -> JsNum.
Variable key : string -> Z.

Lemma compareFn_readable (rows : list Row) (mapped : list WorkoutRecord) :
  labels_readable label_time key rows ->
  exc_map buildRecord (filter is_tracked rows) = Returned mapped ->
  forall a b, In a mapped -> In b mapped ->
    compareFn label_time a b = Fin (key (date a) - key (date b)).
Proof.
  intros Hread Hm.
  assert (Hkey : forall a, In a mapped ->
                           label_time (date a) = Fin (key (date a))).
  { intros a Ha.
    destruct (exc_map_In_inv buildRecord _ _ a Hm Ha) as (row & Hin & Hr).
    apply filter_In in Hin as [Hin Ht].
    rewrite (buildRecord_date row a Hr). now apply Hread. }
  intros a b Ha Hb. unfold compareFn.
  rewrite (Hkey a Ha), (Hkey b Hb). reflexivity.
Qed.

(** X5.  When the runtime reads every label of the batch as a time, the
    published records are in ascending order of that time, so is each
    category's chart, and records with the same time keep the order of
    their rows. *)
Theorem processedData_sorted_stable (rows : list Row)
    (processed : list WorkoutRecord) :
  labels_readable label_time key rows ->
  processedData label_time rows = Returned processed ->
  exists mapped,
    exc_map buildRecord (filter is_tracked rows) = Returned mapped
    /\ StronglySorted (fun a b => key (date a) <= key (date b)) processed
    /\ (forall label,
          StronglySorted (fun a b => key (date a) <= key (date b))
            (categoryData label processed))
    /\ forall k,
         filter (fun r => key (date r) =? k) processed
         = filter (fun r => key (date r) =? k) mapped.
Proof.
  intros Hread Hp. apply processedData_split in Hp as (mapped & Hm & ->).
  exists mapped. split; [exact Hm |].
  destruct (js_sort_by_key WorkoutRecord (compareFn label_time)
              (fun r => key (date r)) mapped
              (compareFn_readable rows mapped Hread Hm)) as [Hs Hf].
  split; [exact Hs |]. split; [| exact Hf].
  intro label. now apply StronglySorted_filter.
Qed.

(** X6.  A batch whose Squash and Hiking rows already come in ascending order
    of label time is published in the order it came. *)
Theorem processedData_keeps_sorted_input (rows : list Row)
    (processed : list WorkoutRecord) :
  labels_readable label_time key rows ->
  StronglySorted
    (fun a b => key (toLocaleDateString (Start a))
                <= key (toLocaleDateString (Start b)))
    (filter is_tracked rows) ->
  processedData label_time rows = Returned processed ->
  exc_map buildRecord (filter is_tracked rows) = Returned processed.
Proof.
  intros Hread Hsorted Hp.
  apply processedData_split in Hp as (mapped & Hm & ->).
  rewrite Hm. f_equal. symmetry.
  pose proof (compareFn_readable rows mapped Hread Hm) as Hcmp.
  assert (Hms : StronglySorted (fun a b => key (date a) <= key (date b))
                  mapped).
  { pose proof (exc_map_returned _ _ _ Hm) as H2. clear Hm Hcmp.
    revert Hsorted. induction H2 as [| row r rows' rs Hr H2 IH];
      intro Hsorted; [constructor |].
    inversion Hsorted as [| ? ? Hs' Hall]; subst.
    constructor; [now apply IH |].
    apply Forall_forall. intros b Hb.
    rewrite (buildRecord_date row r Hr).
    assert (Hrb : exists row', In row' rows' /\ buildRecord row' = Returned b).
    { clear - H2 Hb. induction H2 as [| x y xs ys Hf _ IH2]; [destruct Hb |].
      destruct Hb as [<- | Hb].
      - exists x. split; [now left | exact Hf].
      - destruct (IH2 Hb) as (z & Hz & Hfz). exists z.
        split; [now right | exact Hfz]. }
    destruct Hrb as (row' & Hin' & Hr').
    rewrite (buildRecord_date row' b Hr').
    rewrite Forall_forall in Hall. now apply Hall. }
  clear Hm. induction Hms as [| x xs Hxs IH Hx]; [reflexivity |].
  cbn [js_sort fold_right]. fold (js_sort (compareFn label_time) xs).
  rewrite IH by (intros a b Ha Hb; apply Hcmp; now right).
  destruct xs as [| y ys]; [reflexivity |].
  cbn [insert_sorted].
  rewrite (Hcmp x y) by (simpl; auto).
  inversion Hx as [| ? ? Hxy _]; subst. simpl.
  destruct (0 <? key (date x) - key (date y)) eqn:E; [| reflexivity].
  apply Z.ltb_lt in E. lia.
Qed.

End FiniteLabelTimes.

Lemma sample_batches_readable :
  labels_readable label_time_2001 label_key_2001 sample_batch
  /\ labels_readable label_time_2001 label_key_2001 sample_batch_in_order.
Proof.
  split; intros row [<- | [<- | [<- | []]]] _; reflexivity.
Qed.

Lemma processedData_sorted_stable_witness :
  exists processed,
    processedData label_time_2001 sample_batch = Returned processed
    /\ StronglySorted
         (fun a b => label_key_2001 (date a) <= label_key_2001 (date b))
         processed
    /\ map date processed = ["Mar 1"; "Mar 2"; "Mar 3"].
Proof.
  eexists. split; [reflexivity |].
  destruct (processedData_sorted_stable label_time_2001 label_key_2001
              sample_batch _ (proj1 sample_batches_readable) eq_refl)
    as (mapped & _ & Hs & _).
  split; [exact Hs | reflexivity].
Defined.

Lemma processedData_keeps_sorted_input_witness :
  exc_map buildRecord (filter is_tracked sample_batch_in_order)
  = processedData label_time_2001 sample_batch_in_order.
Proof.
  apply (processedData_keeps_sorted_input label_time_2001 label_key_2001
           sample_batch_in_order _ (proj2 sample_batches_readable)).
  - repeat constructor; vm_compute; discriminate.
  - reflexivity.
Defined.

(** ** Durations that are not of the form H:MM *)

Lemma js_add_NaN_r (a : JsNum) : js_add a NaN = NaN.
Proof. destruct a; reflexivity. Qed.

Lemma reduce_sum_NaN {A : Type} (f : A -> JsNum) (xs : list A) :
  (exists x, In x xs /\ f x = NaN) -> reduce_sum f xs = NaN.
Proof.
  induction xs as [| y xs IH]; intros (x & Hx & Hf); [destruct Hx |].
  rewrite reduce_sum_cons. destruct Hx as [<- | Hx].
  - now rewrite Hf.
  - rewrite IH by (exists x; auto). apply js_add_NaN_r.
Qed.

Lemma split_lacks (sep : ascii) (s : string) :
  lacks sep s = true -> split_on sep s = [s].
Proof.
  induction s as [| c s IH]; simpl; [reflexivity |].
  intro H. apply andb_true_iff in H as [Hc Hs].
  apply negb_true_iff in Hc. now rewrite Hc, (IH Hs).
Qed.

Lemma split_at_first (sep : ascii) (a b : string) :
  lacks sep a = true ->
  split_on sep (a ++ String sep b)%string = a :: split_on sep b.
Proof.
  induction a as [| c a IH]; simpl.
  - now rewrite Ascii.eqb_refl.
  - intro H. apply andb_true_iff in H as [Hc Ha].
    apply negb_true_iff in Hc. now rewrite Hc, (IH Ha).
Qed.

(** X7.  A duration text with no colon in it, whatever it says, gives a record
    whose [durationMinutes] is [NaN]: the second part is missing. *)
Theorem duration_without_colon_is_NaN (row : Row) (s : string) :
  Duration row = VString s ->
  lacks ":" s = true ->
  exists r, buildRecord row = Returned r /\ durationMinutes r = NaN.
Proof.
  intros Hs Hl. rewrite (buildRecord_string row s Hs).
  eexists. split; [reflexivity |]. cbn [durationMinutes].
  rewrite (split_lacks ":" s Hl). cbn [nth_error].
  change (parseInt None) with NaN. apply js_add_NaN_r.
Qed.

Lemma duration_without_colon_is_NaN_witness :
  exists r,
    buildRecord (sample_row "Squash" (DateAt 2024 Mar 1) (VString "90 min")
                   (CNum 300) (CNum 150)) = Returned r
    /\ durationMinutes r = NaN.
Proof.
  apply (duration_without_colon_is_NaN _ "90 min"); reflexivity.
Defined.

(** X8.  One record whose [durationMinutes] is [NaN] makes the total duration of
    its category read "NaNh NaNm", however many other records there are;
    the session count still counts every record. *)
Theorem NaN_duration_spoils_total (rs : list WorkoutRecord) :
  (exists r, In r rs /\ durationMinutes r = NaN) ->
  totalDuration (computeStats rs) = "NaNh NaNm"
  /\ totalSessions (computeStats rs) = Z.of_nat (List.length rs).
Proof.
  intro H. split; [| apply totalSessions_computeStats].
  destruct rs as [| r rs]; [destruct H as (x & Hx & _); destruct Hx |].
  rewrite computeStats_nonempty. cbn [totalDuration].
  now rewrite (reduce_sum_NaN durationMinutes _ H).
Qed.

Lemma NaN_duration_spoils_total_witness :
  totalDuration
    (computeStats
       [sample_record "Squash" 65 (CNum 300) (CNum 150);
        {| date := "Mar 4"; duration := VString "90 min";
           durationMinutes := NaN; calories := CNum 100;
           avgHeartRate := CNull; maxHeartRate := CNull;
           workoutType := VString "Squash" |}])
  = "NaNh NaNm".
Proof.
  refine (proj1 (NaN_duration_spoils_total _ _)).
  eexists. split; [right; left; reflexivity | reflexivity].
Defined.

(** X9.  Minutes of 60 or more are not rejected: for any two non-empty runs of
    digits around the colon the record holds H * 60 + MM minutes, and the
    display carries the surplus into the hours, showing H + MM / 60 hours
    and MM mod 60 minutes. *)
Theorem minutes_overflow_carries (row : Row) (hs ms : string) :
  hs <> "" -> ms <> "" ->
  all_digits hs = true -> all_digits ms = true ->
  Duration row = VString (hs ++ ":" ++ ms) ->
  let H := decimal_value hs in
  let MM := decimal_value ms in
  exists r,
    buildRecord row = Returned r
    /\ durationMinutes r = Fin (H * 60 + MM)
    /\ formatDuration (durationMinutes r)
       = (Z_to_string (H + MM / 60) ++ "h "
          ++ Z_to_string (MM mod 60) ++ "m")%string.
Proof.
  intros Hhne Hmne Hh Hm Hd H MM.
  pose proof (decimal_value_nonneg hs Hh) as HH.
  pose proof (decimal_value_nonneg ms Hm) as HM.
  fold H in HH. fold MM in HM.
  pose proof (buildRecord_string row _ Hd) as Hr.
  rewrite (split_digits_colon hs ms Hh Hm) in Hr.
  cbn [nth_error parseInt] in Hr.
  rewrite (parseInt_string_digits hs Hhne Hh) in Hr.
  rewrite (parseInt_string_digits ms Hmne Hm) in Hr.
  fold H MM in Hr. cbn [js_mul js_add] in Hr.
  eexists. split; [exact Hr |]. cbn [durationMinutes].
  split; [reflexivity |].
  pose proof (Z.mod_pos_bound MM 60 ltac:(lia)) as Hb.
  pose proof (Z.div_mod MM 60 ltac:(lia)) as Hdm.
  assert (Hq : 0 <= MM / 60) by (apply Z.div_pos; lia).
  replace (H * 60 + MM) with ((H + MM / 60) * 60 + MM mod 60) by lia.
  apply formatDuration_hours_minutes; lia.
Qed.

Lemma minutes_overflow_carries_witness :
  exists r,
    buildRecord (sample_row "Hiking" (DateAt 2024 Mar 1) (VString "1:75")
                   (CNum 300) (CNum 150)) = Returned r
    /\ durationMinutes r = Fin 135
    /\ formatDuration (durationMinutes r) = "2h 15m".
Proof.
  apply (minutes_overflow_carries _ "1" "75"); try reflexivity; discriminate.
Defined.

(** X10.  For a negative number of minutes that is not a multiple of 60 the
    display does not add up: the hours are rounded down and the minutes
    keep the sign of the argument, so the two shown numbers stand for one
    hour less than the argument. *)
Theorem formatDuration_negative_off_by_hour (n : Z) :
  n < 0 -> n mod 60 <> 0 ->
  exists h m,
    formatDuration (Fin n)
    = (Z_to_string h ++ "h " ++ Z_to_string m ++ "m")%string
    /\ -60 < m < 0
    /\ h * 60 + m = n - 60.
Proof.
  intros Hn Hmod. exists (n / 60), (Z.rem n 60).
  split; [reflexivity |].
  pose proof (Z.div_mod n 60 ltac:(lia)) as Hdm.
  assert (Hrem : Z.rem n 60 = - ((- n) mod 60)).
  { replace n with (- - n) at 1 by lia.
    rewrite Z.rem_opp_l', Z.rem_mod_nonneg by lia. reflexivity. }
  pose proof (Z.mod_pos_bound (- n) 60 ltac:(lia)) as Hb.
  assert (Hnz : (- n) mod 60 <> 0).
  { intro E. apply Hmod. replace n with (- - n) by lia.
    now apply Z.mod_opp_l_z; [lia |]. }
  assert (Hopp : n mod 60 = 60 - (- n) mod 60).
  { replace n with (- - n) at 1 by lia.
    now apply Z.mod_opp_l_nz; [lia |]. }
  lia.
Qed.

Lemma formatDuration_negative_off_by_hour_witness :
  exists h m,
    formatDuration (Fin (-65))
    = (Z_to_string h ++ "h " ++ Z_to_string m ++ "m")%string
    /\ -60 < m < 0
    /\ h * 60 + m = -65 - 60.
Proof.
  apply (formatDuration_negative_off_by_hour (-65)); [lia |].
  vm_compute. discriminate.
Defined.

(** ** The average when every record has calories *)

Lemma present_calories_bounds (rs : list WorkoutRecord) (lo hi : Z) :
  (forall r, In r rs -> exists z, calories r = CNum z /\ lo <= z <= hi) ->
  Z.of_nat (List.length rs) * lo <= Z_sum (present_calories rs)
  /\ Z_sum (present_calories rs) <= Z.of_nat (List.length rs) * hi.
Proof.
  induction rs as [| r rs IH]; intro H; [simpl; lia |].
  destruct (H r (or_introl eq_refl)) as (z & Hz & Hb).
  destruct IH as [IHlo IHhi]; [intros x Hx; apply H; now right |].
  cbn [present_calories]. rewrite Hz. cbn [Z_sum fold_right List.length].
  fold (Z_sum (present_calories rs)). lia.
Qed.

(** X11.  When every record of a non-empty category has an integer calories
    value, and all of them lie between the integers [lo] and [hi], the
    average shown lies between [lo] and [hi] too: it is a number, never
    [NaN], and rounding does not push it out of the range. *)
Theorem avgCalories_within_range (rs : list WorkoutRecord) (lo hi : Z) :
  rs <> [] ->
  (forall r, In r rs -> exists z, calories r = CNum z /\ lo <= z <= hi) ->
  exists q, avgCalories (computeStats rs) = Fin q /\ lo <= q <= hi.
Proof.
  intros Hne H. destruct rs as [| r rs]; [now contradiction Hne |].
  pose proof (present_calories_bounds _ lo hi H) as [Hlo Hhi].
  rewrite computeStats_nonempty. cbn [avgCalories].
  rewrite sum_calories_present.
  2: { intros x Hx. destruct (H x Hx) as (z & Hz & _). congruence. }
  set (n := Z.of_nat (List.length (r :: rs))) in *.
  set (total := Z_sum (present_calories (r :: rs))) in *.
  assert (Hn : 0 < n) by (unfold n; simpl List.length; lia).
  exists ((2 * total + n) / (2 * n)). split.
  - unfold js_round_div. destruct (n =? 0) eqn:E; [| reflexivity].
    apply Z.eqb_eq in E. lia.
  - pose proof (round_div_nearest total n Hn) as Hq. cbv zeta in Hq. nia.
Qed.

Lemma avgCalories_within_range_witness :
  exists q,
    avgCalories
      (computeStats [sample_record "Squash" 65 (CNum 300) (CNum 150);
                     sample_record "Squash" 45 (CNum 201) (CNum 170)])
    = Fin q
    /\ 201 <= q <= 300.
Proof.
  apply avgCalories_within_range; [discriminate |].
  intros r [<- | [<- | []]]; eexists; (split; [reflexivity | lia]).
Defined.

(** ** Text after the digits *)

Lemma digit_value_not_decimal (c : ascii) :
  is_decimal_digit c = false -> digit_value 10 c = None.
Proof.
  unfold is_decimal_digit, digit_value. intro H. rewrite H.
  destruct ((97 <=? char_code c) && (char_code c <=? 122)) eqn:E1.
  - apply andb_true_iff in E1 as [H1 H2]. apply Z.leb_le in H1, H2.
    destruct (char_code c - 87 <? 10) eqn:E; [| reflexivity].
    apply Z.ltb_lt in E. lia.
  - destruct ((65 <=? char_code c) && (char_code c <=? 90)) eqn:E2;
      [| reflexivity].
    apply andb_true_iff in E2 as [H1 H2]. apply Z.leb_le in H1, H2.
    destruct (char_code c - 55 <? 10) eqn:E; [| reflexivity].
    apply Z.ltb_lt in E. lia.
Qed.

Lemma leading_digits_prefix (ds : string) (c : ascii) (rest : string) :
  all_digits ds = true -> is_decimal_digit c = false ->
  leading_digits 10 (ds ++ String c rest) = leading_digits 10 ds.
Proof.
  intros Hd Hc. induction ds as [| d ds IH]; simpl.
  - now rewrite (digit_value_not_decimal c Hc).
  - simpl in Hd. apply andb_true_iff in Hd as [Hd Hds].
    rewrite (digit_value_decimal d Hd). now rewrite (IH Hds).
Qed.

Lemma digits_lack_colon (s : string) :
  all_digits s = true -> lacks ":" s = true.
Proof.
  induction s as [| c s IH]; simpl; [reflexivity |].
  intro H. apply andb_true_iff in H as [Hc Hs]. rewrite (IH Hs).
  apply digit_is_one_of_ten in Hc. simpl in Hc.
  repeat (destruct Hc as [<- | Hc]; [reflexivity |]). destruct Hc.
Qed.

Lemma lacks_app (sep : ascii) (a b : string) :
  lacks sep (a ++ b) = lacks sep a && lacks sep b.
Proof.
  induction a as [| c a IH]; simpl; [reflexivity |].
  now rewrite IH, andb_assoc.
Qed.

Lemma parseInt_string_prefix (ds : string) (c : ascii) (rest : string) :
  ds <> "" -> all_digits ds = true ->
  is_decimal_digit c = false ->
  Ascii.eqb c "x" = false -> Ascii.eqb c "X" = false ->
  parseInt_string (ds ++ String c rest) = Fin (decimal_value ds).
Proof.
  intros Hne Hall Hc Hx HX. destruct ds as [| d ds]; [now contradiction Hne |].
  pose proof Hall as Hall'.
  cbn [all_digits] in Hall. apply andb_true_iff in Hall as [Hd Hds].
  pose proof (leading_digits_nonempty d ds Hd) as Hnil.
  pose proof (leading_digits_value (String d ds) 0 Hall') as Hval.
  pose proof (leading_digits_prefix (String d ds) c rest Hall' Hc) as Hpre.
  assert (Hplain :
    match leading_digits 10 (String d ds ++ String c rest) with
    | [] => NaN
    | digits => Fin (1 * digits_to_Z 10 digits)
    end = Fin (decimal_value (String d ds))).
  { rewrite Hpre.
    destruct (leading_digits 10 (String d ds)) as [| x xs] eqn:E;
      [now contradiction Hnil |].
    unfold digits_to_Z. rewrite Hval. f_equal. lia. }
  pose proof (digit_is_one_of_ten d Hd) as Hin. simpl in Hin.
  destruct Hin as [<- | Hin].
  - destruct ds as [| y ds].
    + unfold parseInt_string.
      cbn -[leading_digits digits_to_Z Ascii.eqb Z.mul].
      rewrite Hx, HX. exact Hplain.
    + cbn [all_digits] in Hds. apply andb_true_iff in Hds as [Hy _].
      pose proof (digit_is_one_of_ten y Hy) as Hyin. simpl in Hyin.
      repeat (destruct Hyin as [<- | Hyin]; [exact Hplain |]). destruct Hyin.
  - repeat (destruct Hin as [<- | Hin]; [exact Hplain |]). destruct Hin.
Qed.

Lemma append_empty_r (s : string) : (s ++ "")%string = s.
Proof. induction s as [| c s IH]; simpl; [reflexivity | now rewrite IH]. Qed.

Lemma parseInt_string_tail (ds tail : string) :
  ds <> "" -> all_digits ds = true -> ignored_tail tail = true ->
  parseInt_string (ds ++ tail) = Fin (decimal_value ds).
Proof.
  intros Hne Hd Ht. destruct tail as [| c rest].
  - rewrite append_empty_r. now apply parseInt_string_digits.
  - unfold ignored_tail in Ht. apply andb_true_iff in Ht as [_ Ht].
    apply andb_true_iff in Ht as [Ht HX]. apply andb_true_iff in Ht as [Hc Hx].
    apply negb_true_iff in Hc, Hx, HX.
    now apply parseInt_string_prefix.
Qed.

(** X12.  Text that follows the digits of the hours or of the minutes is
    ignored, as long as it holds no colon and does not start with a digit
    or with the letter x: "1h:30min", "1.5:30" and "1:30 PM" all count as
    1 hour and 30 minutes. *)
Theorem duration_trailing_text_ignored (row : Row)
    (hs htail ms mtail : string) :
  hs <> "" -> ms <> "" ->
  all_digits hs = true -> all_digits ms = true ->
  ignored_tail htail = true -> ignored_tail mtail = true ->
  Duration row = VString ((hs ++ htail) ++ ":" ++ (ms ++ mtail)) ->
  exists r,
    buildRecord row = Returned r
    /\ durationMinutes r = Fin (decimal_value hs * 60 + decimal_value ms).
Proof.
  intros Hhne Hmne Hh Hm Hth Htm Hd.
  rewrite (buildRecord_string row _ Hd).
  eexists. split; [reflexivity |]. cbn [durationMinutes].
  pose proof Hth as Hlh. pose proof Htm as Hlm.
  unfold ignored_tail in Hlh, Hlm.
  apply andb_true_iff in Hlh as [Hlh _]. apply andb_true_iff in Hlm as [Hlm _].
  change ((hs ++ htail) ++ ":" ++ ms ++ mtail)%string
    with ((hs ++ htail) ++ String ":" (ms ++ mtail))%string.
  rewrite split_at_first
    by (rewrite lacks_app, (digits_lack_colon hs Hh); exact Hlh).
  rewrite split_lacks
    by (rewrite lacks_app, (digits_lack_colon ms Hm); exact Hlm).
  cbn [nth_error parseInt].
  now rewrite !parseInt_string_tail.
Qed.

Lemma duration_trailing_text_ignored_witness :
  (exists r,
     buildRecord (sample_row "Hiking" (DateAt 2024 Mar 1)
                    (VString "1h:30min") (CNum 300) (CNum 150)) = Returned r
     /\ durationMinutes r = Fin 90)
  /\ exists r,
       buildRecord (sample_row "Hiking" (DateAt 2024 Mar 1)
                      (VString "1.5:30") (CNum 300) (CNum 150)) = Returned r
       /\ durationMinutes r = Fin 90.
Proof.
  split.
  - apply (duration_trailing_text_ignored _ "1" "h" "30" "min");
      try reflexivity; discriminate.
  - apply (duration_trailing_text_ignored _ "1" ".5" "30" "");
      try reflexivity; discriminate.
Defined.

(** ** The name of the exported image *)

Lemma zeros_lack_T (n : nat) : lacks "T" (zeros n) = true.
Proof. induction n; simpl; auto. Qed.

Lemma string_of_uint_lacks_T (d : Decimal.uint) :
  lacks "T" (NilEmpty.string_of_uint d) = true.
Proof. induction d; simpl; auto. Qed.

Lemma Z_to_string_lacks_T (z : Z) : lacks "T" (Z_to_string z) = true.
Proof.
  unfold Z_to_string, NilZero.string_of_int, NilZero.string_of_uint.
  destruct (Z.to_int z) as [d | d];
    pose proof (string_of_uint_lacks_T d) as H;
    destruct d; simpl in *; auto.
Qed.

Lemma pad_zero_lacks_T (width : nat) (z : Z) :
  lacks "T" (pad_zero width z) = true.
Proof.
  unfold pad_zero. now rewrite lacks_app, zeros_lack_T, Z_to_string_lacks_T.
Qed.

Lemma isoDate_lacks_T (t : UtcTime) : lacks "T" (isoDate t) = true.
Proof.
  unfold isoDate.
  destruct ((0 <=? utcYear t) && (utcYear t <=? 9999));
    [| destruct (utcYear t <? 0)];
    repeat (rewrite lacks_app; cbn [lacks Ascii.eqb Bool.eqb negb andb]);
    rewrite ?pad_zero_lacks_T; reflexivity.
Qed.

(** X13.  The exported image is named after the UTC date alone: the name is
    "workout-analysis-", the date part of the ISO text and ".png", so two
    exports on the same UTC day get the same name whatever the time of
    day. *)
Theorem exportFileName_date_only (now later : UtcTime) :
  exportFileName now
  = ("workout-analysis-" ++ isoDate now ++ ".png")%string
  /\ (utcYear later = utcYear now ->
      utcMonth later = utcMonth now ->
      utcDay later = utcDay now ->
      exportFileName later = exportFileName now).
Proof.
  assert (H : forall t, exportFileName t
                        = ("workout-analysis-" ++ isoDate t ++ ".png")%string).
  { intro t. unfold exportFileName, toISOString.
    change (isoDate t ++ "T" ++ ?r)%string
      with (isoDate t ++ String "T" r)%string.
    now rewrite (split_at_first "T" (isoDate t) _ (isoDate_lacks_T t)). }
  split; [apply H |].
  intros Hy Hm Hd. rewrite !H. unfold isoDate. now rewrite Hy, Hm, Hd.
Qed.

Lemma exportFileName_date_only_witness :
  exportFileName (mkUtcTime 2026 11 1 23 59 59 999)
  = exportFileName (mkUtcTime 2026 11 1 0 0 0 0).
Proof.
  apply (proj2 (exportFileName_date_only (mkUtcTime 2026 11 1 0 0 0 0)
                  (mkUtcTime 2026 11 1 23 59 59 999))); reflexivity.
Defined.

Example exportFileName_sample :
  exportFileName (mkUtcTime 2026 11 1 9 5 3 7)
  = "workout-analysis-2026-11-01.png".
Proof. reflexivity. Qed.

(** ** Each category's statistics come from its own rows *)






Example parseInt_unicode_space :
  parseInt_string
    (String (ascii_of_nat 194) (String (ascii_of_nat 160) " 12"))
  = Fin 12.
Proof. reflexivity. Qed.

(** On integer cells the two models of the average agree, here on the
    end-to-end scenario and on an empty cell. *)
Example avgCalories_double_on_integers :
  avgCalories_double [DNum (double_of_Z 300); DNum (double_of_Z 200)]
  = Fin 250
  /\ avgCalories_double [DNum (double_of_Z 300); DNull] = Fin 150
  /\ avgCalories_double [DNum (double_of_Z 300); DUndefined] = NaN.
Proof. repeat split. Qed.
